(** * tk-video-analyzer: the job pipeline, the keyframe selector and the
      progress stream of [backend/analyzer.py] and [backend/main.py].

    The development is a shallow embedding.  Python strings are [string],
    exceptions are carried by their message ([str(e)]), the per-job
    directories under [TEMP_STORAGE_PATH] are a finite map from job id to
    the files the code reads and writes there, and [SSEManager.connections]
    is a finite map from job id to a FIFO queue.  External tools (yt_dlp,
    ffmpeg, whisper, scenedetect, the generative model) are fields of an
    environment record: each call either returns or raises. *)

From Stdlib Require Import ZArith QArith String Ascii List Sorted DecimalString DecimalN Lia.
From stdpp Require Import base gmap strings list.
Open Scope string_scope.
Open Scope list_scope.
Open Scope Z_scope.

(** ** Strings as Python uses them *)

Module PyStr.

(** [s.startswith(p)] *)
Fixpoint startswith (s p : string) {struct p} : bool :=
  match p with
  | EmptyString => true
  | String a p' =>
      match s with
      | String b s' => if Ascii.eqb a b then startswith s' p' else false
      | EmptyString => false
      end
  end.

(** [needle in haystack] on strings: some suffix of the haystack starts
    with the needle. *)
Fixpoint contains (needle haystack : string) : bool :=
  match haystack with
  | EmptyString => startswith EmptyString needle
  | String _ rest => startswith haystack needle || contains needle rest
  end.

(** [s.endswith(p)] *)
Definition endswith (s p : string) : bool :=
  startswith (String.rev s) (String.rev p).

Definition newline : string := String "010"%char EmptyString.
Definition dquote : string := String "034"%char EmptyString.

(** [os.path.join(a, b)] for POSIX paths. *)
Definition path_join (a b : string) : string :=
  if startswith b "/" then b
  else if String.eqb a "" || endswith a "/" then a +:+ b
  else a +:+ "/" +:+ b.

(** [format(n, "03d")] for a non-negative [n]: the decimal digits,
    padded on the left with zeros up to width 3. *)
Definition decimal (n : N) : string := NilZero.string_of_uint (N.to_uint n).

Definition zfill3 (s : string) : string :=
  match String.length s with
  | O => "000" +:+ s
  | 1%nat => "00" +:+ s
  | 2%nat => "0" +:+ s
  | _ => s
  end.

Definition format_03d (n : N) : string := zfill3 (decimal n).

(** [repr(s)]: the text between quotes, single ones unless the text holds
    a single quote and no double quote; the quote in use and the backslash
    are escaped, tab, newline and return are written \t, \n and \r, the
    other control characters \xNN.  Bytes from 128 on are left as they
    are: the characters outside ASCII are taken to be printable. *)
Definition backslash : ascii := "092"%char.
Definition squote_char : ascii := "039"%char.
Definition dquote_char : ascii := "034"%char.

Definition hex_digit (n : N) : ascii :=
  nth (N.to_nat n)
      ["0"; "1"; "2"; "3"; "4"; "5"; "6"; "7"; "8"; "9"; "a"; "b"; "c"; "d"; "e"; "f"]%char
      "0"%char.

Definition has_char (c : ascii) (s : string) : bool :=
  existsb (Ascii.eqb c) (list_ascii_of_string s).

Definition repr_char (quote c : ascii) : string :=
  let n := N_of_ascii c in
  if Ascii.eqb c quote || Ascii.eqb c backslash then String backslash (String c "")
  else if Ascii.eqb c "009"%char then String backslash "t"
  else if Ascii.eqb c "010"%char then String backslash "n"
  else if Ascii.eqb c "013"%char then String backslash "r"
  else if (n <? 32)%N || (n =? 127)%N then
    String backslash (String "x"%char (String (hex_digit (n / 16)) (String (hex_digit (n mod 16)) "")))
  else String c "".

Fixpoint repr_body (quote : ascii) (s : string) : string :=
  match s with
  | EmptyString => ""
  | String c s' => repr_char quote c +:+ repr_body quote s'
  end.

Definition py_repr (s : string) : string :=
  let quote := if has_char squote_char s && negb (has_char dquote_char s)
               then dquote_char else squote_char in
  String quote (repr_body quote s) +:+ String quote "".

(** Python floats, here the multiples of 1/2 that the midpoint of a scene
    goes through.  [round53 k] is the integer nearest to [k] that has at
    most 53 significant bits, ties going to the even significand: what
    binary64 does to a significand.  [binary64 x] is the float nearest to a
    multiple [x] of 1/2.  The exponent range is left out: from 2^1024 on
    Python raises OverflowError where this gives a number. *)
Definition round53 (k : Z) : Z :=
  let m := Z.abs k in
  if m <? 2 ^ 53 then k
  else
    let s := Z.log2 m - 52 in
    let q := m / 2 ^ s in
    let r := m mod 2 ^ s in
    let half := 2 ^ (s - 1) in
    let q' := if r <? half then q
              else if half <? r then q + 1
              else if Z.even q then q else q + 1 in
    Z.sgn k * (q' * 2 ^ s).

Definition binary64 (x : Q) : Q :=
  Qmake (round53 (2 * Qnum x / Zpos (Qden x))) 2.

(** [sorted(l)] on strings paired with a payload, by the string. *)
Fixpoint insert_sorted {A} (x : string * A) (l : list (string * A)) : list (string * A) :=
  match l with
  | [] => [x]
  | y :: l' => if String.leb x.1 y.1 then x :: l else y :: insert_sorted x l'
  end.

Definition sorted {A} (l : list (string * A)) : list (string * A) :=
  foldr insert_sorted [] l.

End PyStr.

(** ** Results of calls that may raise *)

Inductive result (A : Type) : Type :=
| Ok (a : A)
| Raise (e : string).
Arguments Ok {A} a.
Arguments Raise {A} e.

(** ** The world the backend acts on *)

Definition Image := string.

(** The files of one job directory [TEMP_STORAGE_PATH/<job_id>]. *)
Record JobDir := mkJobDir {
  status_txt : option string;            (* status.txt *)
  report_md : option string;             (* report.md *)
  video : option string;                 (* the one video.* file, by name *)
  audio_mp3 : bool;                      (* audio.mp3 is present *)
  audio_txt : option string;             (* audio.txt, the saved transcript *)
  keyframes : option (gmap string Image) (* keyframes/, file name to image *)
}.

Definition empty_dir : JobDir := mkJobDir None None None false None None.

Inductive Collaborator :=
| Downloader | AudioExtractor | Transcriber | SceneDetector | ReportGenerator.

(** What an outside observer can see happen, in order. *)
Inductive Effect :=
| StatusWrite (job value : string)
| Invoke (job : string) (c : Collaborator)
| Publish (job message : string).

Record World := mkWorld {
  fs : gmap string JobDir;
  connections : gmap string (list string);
  history : list Effect
}.

Definition Scene : Type := Z * Z.

(** A part of the prompt handed to the model. *)
Inductive Part := Text (s : string) | Picture (i : Image).

(** The tools the backend calls and what they answer.
    - [cwd]: the working directory of the server process;
    - [extract_info url]: [ydl.extract_info(url, download=True)] followed by
      [ydl.prepare_filename(info)], the name of the downloaded file;
    - [ffmpeg_run video_path]: the ffmpeg run that writes audio.mp3;
    - [whisper_transcribe audio_path]: [whisper_model.transcribe(...)["text"]];
    - [detect_scenes video_path]: [open_video] and
      [scene_manager.detect_scenes], the scene list as pairs of frame numbers;
    - [frame_at video_path n]: [video.seek(n)] followed by [video.read()]:
      [Some v] for any value [v] other than [None] that the read hands
      back (a decoded frame, or what the stream gives at the end of the
      video), [None] when it hands back [None]; a seek or a read that
      raises is not part of this model;
    - [image_open path image]: [Image.open(path)] on a stored keyframe,
      [None] for an [IOError];
    - [generate_content parts]: [llm_model.generate_content_async], the
      text of the response. *)
Record Env := mkEnv {
  cwd : string;
  extract_info : string -> result string;
  ffmpeg_run : string -> result unit;
  whisper_transcribe : string -> result string;
  detect_scenes : string -> result (list Scene);
  frame_at : string -> Z -> option Image;
  image_open : string -> Image -> option Image;
  generate_content : list Part -> result string
}.

(** ** State and exceptions *)

Definition M (A : Type) : Type := World -> result A * World.

Definition ret {A} (a : A) : M A := fun w => (Ok a, w).
Definition raise {A} (e : string) : M A := fun w => (Raise e, w).
Definition bind {A B} (m : M A) (k : A -> M B) : M B :=
  fun w => match m w with
           | (Ok a, w') => k a w'
           | (Raise e, w') => (Raise e, w')
           end.

Notation "'do' x <- m ; k" := (bind m (fun x => k))
  (at level 10, x name, m at level 100, k at level 200).
Notation "m ;; k" := (bind m (fun _ => k))
  (at level 100, k at level 200, right associativity).

(** [try: m  except Exception as e: h e] *)
Definition try_except {A} (m : M A) (h : string -> M A) : M A :=
  fun w => match m w with
           | (Ok a, w') => (Ok a, w')
           | (Raise e, w') => h e w'
           end.

(** [try: m  finally: f] *)
Definition try_finally {A} (m : M A) (f : M unit) : M A :=
  fun w => match m w with
           | (r, w') => match f w' with
                        | (Ok _, w'') => (r, w'')
                        | (Raise e, w'') => (Raise e, w'')
                        end
           end.

Definition lift_result {A} (r : result A) : M A := fun w => (r, w).

Definition log (ef : Effect) : M unit :=
  fun w => (Ok tt, mkWorld (fs w) (connections w) (history w ++ [ef])).

(** The text of the FileNotFoundError for [path]: the message and the
    [repr] of the file name. *)
Definition no_such_file (path : string) : string :=
  "[Errno 2] No such file or directory: " +:+ PyStr.py_repr path.

(** The file store holds one [JobDir] per job id: the ids are the texts
    [str(uuid.uuid4())] gives, single path components that name the
    directories under TEMP_STORAGE_PATH one to one, and every path the
    backend builds lies in the directory of the job at hand.  A path is
    kept for the text of the error. *)

(** [open(path, "w")] followed by a write into a file of the job directory:
    the directory has to exist. *)
Definition write_file (job path : string) (upd : JobDir -> JobDir) : M unit :=
  fun w => match fs w !! job with
           | Some d => (Ok tt, mkWorld (<[job := upd d]> (fs w)) (connections w) (history w))
           | None => (Raise (no_such_file path), w)
           end.

(** An effect of a tool on the job directory, when the directory is there. *)
Definition modify_dir (job : string) (upd : JobDir -> JobDir) : M unit :=
  fun w => match fs w !! job with
           | Some d => (Ok tt, mkWorld (<[job := upd d]> (fs w)) (connections w) (history w))
           | None => (Ok tt, w)
           end.

(** [os.makedirs(job_dir, exist_ok=True)] *)
Definition makedirs (job : string) : M unit :=
  fun w => match fs w !! job with
           | Some _ => (Ok tt, w)
           | None => (Ok tt, mkWorld (<[job := empty_dir]> (fs w)) (connections w) (history w))
           end.

Definition set_status (s : string) (d : JobDir) : JobDir :=
  mkJobDir (Some s) (report_md d) (video d) (audio_mp3 d) (audio_txt d) (keyframes d).
Definition set_report (s : string) (d : JobDir) : JobDir :=
  mkJobDir (status_txt d) (Some s) (video d) (audio_mp3 d) (audio_txt d) (keyframes d).
Definition set_video (v : option string) (d : JobDir) : JobDir :=
  mkJobDir (status_txt d) (report_md d) v (audio_mp3 d) (audio_txt d) (keyframes d).
Definition set_audio_mp3 (b : bool) (d : JobDir) : JobDir :=
  mkJobDir (status_txt d) (report_md d) (video d) b (audio_txt d) (keyframes d).
Definition set_audio_txt (s : string) (d : JobDir) : JobDir :=
  mkJobDir (status_txt d) (report_md d) (video d) (audio_mp3 d) (Some s) (keyframes d).
Definition set_keyframes (k : gmap string Image) (d : JobDir) : JobDir :=
  mkJobDir (status_txt d) (report_md d) (video d) (audio_mp3 d) (audio_txt d) (Some k).

(** ** backend/analyzer.py *)

Module Analyzer.
Import PyStr.

(** [TEMP_STORAGE_PATH = os.path.abspath("./temp_storage")] *)
Definition TEMP_STORAGE_PATH (env : Env) : string := path_join (cwd env) "temp_storage".
Definition job_dir (env : Env) (job_id : string) : string :=
  path_join (TEMP_STORAGE_PATH env) job_id.
Definition status_file (env : Env) (job_id : string) : string :=
  path_join (job_dir env job_id) "status.txt".

(** [with open(status_file, "w") as f: f.write(value)] *)
Definition write_status (env : Env) (job_id value : string) : M unit :=
  write_file job_id (status_file env job_id) (set_status value);;
  log (StatusWrite job_id value).

(** [os.listdir(download_path)], then the removal of every [video.*]. *)
Definition remove_old_videos (env : Env) (job_id : string) : M unit :=
  fun w => match fs w !! job_id with
           | Some d => modify_dir job_id (set_video None) w
           | None => (Raise (no_such_file (job_dir env job_id)), w)
           end.

Definition _download_video (env : Env) (url job_id : string) : M string :=
  remove_old_videos env job_id;;
  log (Invoke job_id Downloader);;
  do filename <- lift_result (extract_info env url);
  modify_dir job_id (set_video (Some filename));;
  ret filename.

Definition _extract_audio (env : Env) (video_path job_id : string) : M string :=
  let audio_path := path_join (job_dir env job_id) "audio.mp3" in
  log (Invoke job_id AudioExtractor);;
  try_except
    (lift_result (ffmpeg_run env video_path);;
     modify_dir job_id (set_audio_mp3 true))
    (fun e => raise e);;
  ret audio_path.

(** [os.path.splitext(p)[0]]: the path without the extension of its last
    component; a component made of dots up to its last dot has none. *)
Fixpoint has_name_char (r : string) : bool :=
  match r with
  | EmptyString => false
  | String c r' =>
      if Ascii.eqb c "/" then false
      else if Ascii.eqb c "." then has_name_char r' else true
  end.

Fixpoint strip_ext_rev (r : string) : option string :=
  match r with
  | EmptyString => None
  | String c r' =>
      if Ascii.eqb c "/" then None
      else if Ascii.eqb c "." then (if has_name_char r' then Some r' else None)
      else strip_ext_rev r'
  end.

Definition splitext_root (p : string) : string :=
  match strip_ext_rev (String.rev p) with
  | Some r => String.rev r
  | None => p
  end.

(** [_transcribe_audio(audio_path)].  The pipeline calls it on the
    audio.mp3 of the job; [job_id] names the directory [audio_path] lies
    in, where the transcript is written and the audio removed. *)
Definition _transcribe_audio (env : Env) (job_id audio_path : string) : M string :=
  try_finally
    (log (Invoke job_id Transcriber);;
     do transcript <- lift_result (whisper_transcribe env audio_path);
     let transcript_path := splitext_root audio_path +:+ ".txt" in
     write_file job_id transcript_path (set_audio_txt transcript);;
     ret transcript)
    (modify_dir job_id (set_audio_mp3 false)).

(** [os.makedirs(keyframes_dir, exist_ok=True)]: missing parents are
    made too. *)
Definition makedirs_keyframes (job_id : string) : M unit :=
  makedirs job_id;;
  modify_dir job_id (fun d => match keyframes d with
                              | Some _ => d
                              | None => set_keyframes ∅ d
                              end).

(** [cv2.imwrite(path, image)]: writes when the directory is there, and
    reports a missing directory by its return value only. *)
Definition imwrite (job_id name : string) (image : Image) : M unit :=
  modify_dir job_id (fun d => match keyframes d with
                              | Some k => set_keyframes (<[name := image]> k) d
                              | None => d
                              end).

(** [int(x)] on a number: truncation toward zero. *)
Definition py_int (x : Q) : Z := Z.quot (Qnum x) (Zpos (Qden x)).

(** [int(start + (end - start) / 2)]: the true division of the two ints
    gives the float nearest to the quotient, the int [start] is converted
    to the float nearest to it, and the sum is rounded again. *)
Definition middle_frame_num (scene : Scene) : Z :=
  let '(start_frame, end_frame) := scene in
  py_int (binary64 (binary64 (inject_Z start_frame)
                    + binary64 (inject_Z (end_frame - start_frame) / inject_Z 2)))%Q.

Definition keyframe_name (n : N) : string := "keyframe_" +:+ format_03d n +:+ ".jpg".

(** The [for i, scene in enumerate(scene_list)] loop; [i] is the index of
    the head of [scene_list]. *)
Fixpoint save_keyframes (env : Env) (video_path job_id keyframes_dir : string)
    (i : N) (scene_list : list Scene) (saved_keyframes : list string) : M (list string) :=
  match scene_list with
  | [] => ret saved_keyframes
  | scene :: rest =>
      (* video.seek(middle_frame_num); frame_image = video.read() *)
      match frame_at env video_path (middle_frame_num scene) with
      | Some frame_image =>
          let keyframe_path := path_join keyframes_dir (keyframe_name (i + 1)) in
          imwrite job_id (keyframe_name (i + 1)) frame_image;;
          save_keyframes env video_path job_id keyframes_dir (i + 1) rest
            (saved_keyframes ++ [keyframe_path])
      | None =>
          save_keyframes env video_path job_id keyframes_dir (i + 1) rest saved_keyframes
      end
  end.

Definition _extract_keyframes (env : Env) (video_path job_id : string) : M (list string) :=
  let keyframes_dir := path_join (job_dir env job_id) "keyframes" in
  makedirs_keyframes job_id;;
  log (Invoke job_id SceneDetector);;
  do scene_list <- lift_result (detect_scenes env video_path);
  save_keyframes env video_path job_id keyframes_dir 0%N scene_list [].

(** [os.listdir(keyframes_dir)], for the keyframes directory of the job
    [job_id]. *)
Definition listdir_keyframes (job_id keyframes_dir : string) : M (list (string * Image)) :=
  fun w => match fs w !! job_id with
           | Some d => match keyframes d with
                       | Some k => (Ok (map_to_list k), w)
                       | None => (Raise (no_such_file keyframes_dir), w)
                       end
           | None => (Raise (no_such_file keyframes_dir), w)
           end.

Definition fallback_report (e transcript : string) : string :=
  "# LLM Analysis Failed" +:+ newline +:+ newline +:+ "Error: " +:+ e
    +:+ newline +:+ newline +:+ "## Transcript" +:+ newline +:+ transcript.

Definition prompt_parts (transcript : string) (image_parts : list Image) : list Part :=
  [ Text "You are a world-class TikTok video analyst. Your task is to analyze the provided materials (transcript and keyframes) of a TikTok video and generate a comprehensive report in Markdown format.";
    Text "The report must follow these language requirements:";
    Text "The final report will have two parts: the speech transcript in its original language, and all other analysis in Simplified Chinese.";
    Text (newline +:+ "---");
    Text (newline +:+ newline +:+ "**1. Full Speech Transcript:**");
    Text (newline +:+ "> " +:+ dquote +:+ transcript +:+ dquote);
    Text (newline +:+ newline +:+ "**2. 故事板和拍摄脚本:**");
    Text "请根据提供的关键帧和文字记录，创建一个专业级的故事板和拍摄脚本。**必须使用标准的GitHub Flavored Markdown表格格式**，包含表头和分隔线。表格应包含以下列：`场景`、`关键帧描述`、`视觉元素`、`人物动作`、`镜头语言`、`音频/对话`、`音效/背景音乐`。直接回答内容，不需要其他说明。" ]
  ++ map Picture image_parts ++
  [ Text (newline +:+ newline +:+ "**3. 深入分析:**");
    Text "请以资深内容策略师的视角，对视频进行多维度的深入分析。分析应包括但不限于以下方面：内容创意、叙事结构、视觉呈现、情感共鸣和传播潜力。请务必结合具体画面和对话进行讨论。直接回答内容，不需要其他说明。" ].

Definition _generate_report (env : Env) (transcript job_id keyframes_dir : string) : M string :=
  do files <- listdir_keyframes job_id keyframes_dir;
  let keyframe_files :=
    sorted (map (fun f => (path_join keyframes_dir f.1, f.2))
                (filter (fun f => endswith f.1 ".jpg" = true) files)) in
  (* Image.open(img_path); a file that does not open is skipped *)
  let image_parts := omap (fun f => image_open env f.1 f.2) keyframe_files in
  try_except
    (log (Invoke job_id ReportGenerator);;
     lift_result (generate_content env (prompt_parts transcript image_parts)))
    (fun e => ret (fallback_report e transcript)).

Definition write_report (env : Env) (job_id report : string) : M unit :=
  write_file job_id (path_join (job_dir env job_id) "report.md") (set_report report).

Definition _run_analysis_on_local_file (env : Env) (job_id video_path : string) : M unit :=
  try_except
    (write_status env job_id "extracting_audio";;
     do audio_path <- _extract_audio env video_path job_id;
     write_status env job_id "transcribing";;
     do transcript <- _transcribe_audio env job_id audio_path;
     write_status env job_id "extracting_frames";;
     let keyframes_dir := path_join (job_dir env job_id) "keyframes" in
     makedirs_keyframes job_id;;
     _extract_keyframes env video_path job_id;;
     write_status env job_id "generating_report";;
     do report <- _generate_report env transcript job_id keyframes_dir;
     write_report env job_id report;;
     write_status env job_id "complete")
    (fun e =>
       let error_message := "Error during analysis: " +:+ e in
       write_status env job_id ("error: " +:+ error_message);;
       raise e).

Definition unsupported_url_message : string :=
  "Unsupported URL. Please provide a direct link to a TikTok or Douyin video, not a user profile or search page.".

(** The test of the validation gate:
    ["/video/" in video_url or "/note/" in video_url]. *)
Definition url_is_supported (video_url : string) : bool :=
  contains "/video/" video_url || contains "/note/" video_url.

Definition run_analysis_pipeline (env : Env) (job_id video_url : string) : M unit :=
  if negb (url_is_supported video_url) then
    write_status env job_id ("Error: " +:+ unsupported_url_message);;
    ret tt
  else
    try_except
      (write_status env job_id "downloading";;
       do video_path <- _download_video env video_url job_id;
       (if String.eqb video_path "" then raise "Failed to download video." else ret tt);;
       _run_analysis_on_local_file env job_id video_path)
      (fun e =>
         let error_message := "An error occurred: " +:+ e in
         write_status env job_id ("error: " +:+ error_message)).

End Analyzer.

(** ** backend/main.py *)

Module Main.
Import PyStr.

(** [TEMP_STORAGE_PATH = "temp_storage"], relative to the working
    directory the analyzer resolves its own against. *)
Definition TEMP_STORAGE_PATH : string := "temp_storage".

(** *** SSEManager *)

Definition add_connection (job_id : string) : M (list string) :=
  fun w => (Ok [], mkWorld (fs w) (<[job_id := []]> (connections w)) (history w)).

(** [if job_id in self.connections: await self.connections[job_id].put(message)] *)
Definition send_event (job_id message : string) : M unit :=
  fun w => match connections w !! job_id with
           | Some queue =>
               (Ok tt, mkWorld (fs w) (<[job_id := queue ++ [message]]> (connections w))
                               (history w ++ [Publish job_id message]))
           | None => (Ok tt, w)
           end.

Definition remove_connection (job_id : string) : M unit :=
  fun w => (Ok tt, mkWorld (fs w) (delete job_id (connections w)) (history w)).

(** *** Analysis pipeline wrappers *)

Definition run_analysis_and_notify (env : Env) (job_id url : string) : M unit :=
  try_except
    (Analyzer.run_analysis_pipeline env job_id url;;
     send_event job_id "complete")
    (fun e => send_event job_id "error").

Definition run_local_file_analysis_and_notify (env : Env) (job_id video_path : string) : M unit :=
  try_except
    (Analyzer._run_analysis_on_local_file env job_id video_path;;
     send_event job_id "complete")
    (fun e => send_event job_id "error").

(** *** Endpoints *)

(** What [background_tasks.add_task] schedules to run after the response. *)
Inductive Task :=
| UrlTask (job_id url : string)
| LocalFileTask (job_id video_path : string).

Definition run_task (env : Env) (t : Task) : M unit :=
  match t with
  | UrlTask job_id url => run_analysis_and_notify env job_id url
  | LocalFileTask job_id video_path => run_local_file_analysis_and_notify env job_id video_path
  end.

(** [POST /analyze]; [uuid4] is the value [str(uuid.uuid4())] takes. *)
Definition analyze_video_url (uuid4 url : string) : M (string * Task) :=
  let job_id := uuid4 in
  makedirs job_id;;
  ret (job_id, UrlTask job_id url).

(** [POST /analyze-upload] *)
Definition analyze_video_upload (uuid4 : string) : M (string * Task) :=
  let job_id := uuid4 in
  let job_dir := path_join TEMP_STORAGE_PATH job_id in
  makedirs job_id;;
  let video_path := path_join job_dir "video.mp4" in
  write_file job_id video_path (set_video (Some video_path));;
  ret (job_id, LocalFileTask job_id video_path).

(** [GET /stream/{job_id}]: what [event_generator] yields from a queue
    holding [queue], and what it leaves unread; it stops after a terminal
    message. *)
Definition is_terminal (message : string) : bool :=
  String.eqb message "complete" || String.eqb message "error".

Fixpoint event_generator (queue : list string) : list string * list string :=
  match queue with
  | [] => ([], [])
  | message :: rest =>
      if is_terminal message then ([message], rest)
      else let '(sent, unread) := event_generator rest in (message :: sent, unread)
  end.

(** [GET /results/{job_id}/report] *)
Definition get_report (job_id : string) : M string :=
  fun w => match fs w !! job_id with
           | Some d => match report_md d with
                       | Some r => (Ok r, w)
                       | None => (Raise "Report not found.", w)
                       end
           | None => (Raise "Report not found.", w)
           end.

End Main.

(** ** The vocabulary of the properties *)

(** The named stages of the pipeline in their order, and the failure state. *)
Inductive Stage :=
| Downloading | ExtractingAudio | Transcribing | ExtractingFrames
| GeneratingReport | Complete | Failed.

Definition stage_rank (s : Stage) : nat :=
  match s with
  | Downloading => 0 | ExtractingAudio => 1 | Transcribing => 2
  | ExtractingFrames => 3 | GeneratingReport => 4 | Complete => 5
  | Failed => 6
  end%nat.

(** How a reader of status.txt tells the stage from the stored value. *)
Definition stage_of_status (value : string) : option Stage :=
  if String.eqb value "downloading" then Some Downloading
  else if String.eqb value "extracting_audio" then Some ExtractingAudio
  else if String.eqb value "transcribing" then Some Transcribing
  else if String.eqb value "extracting_frames" then Some ExtractingFrames
  else if String.eqb value "generating_report" then Some GeneratingReport
  else if String.eqb value "complete" then Some Complete
  else if PyStr.startswith value "error: " || PyStr.startswith value "Error: " then Some Failed
  else None.

(** The event name of a status value: its own text for a named stage,
    ["error"] for a failure. *)
Definition short_name (value : string) : string :=
  match stage_of_status value with
  | Some Failed => "error"
  | _ => value
  end.

(** What a computation adds to the history of the world it starts from. *)
Definition effects_of {A} (m : M A) (w : World) : list Effect :=
  drop (length (history w)) (history (m w).2).

Definition status_values (job : string) (effects : list Effect) : list string :=
  omap (fun ef => match ef with
                  | StatusWrite j v => if String.eqb j job then Some v else None
                  | _ => None
                  end) effects.

Definition published (job : string) (effects : list Effect) : list string :=
  omap (fun ef => match ef with
                  | Publish j m => if String.eqb j job then Some m else None
                  | _ => None
                  end) effects.

Definition is_publish (ef : Effect) : bool :=
  match ef with Publish _ _ => true | _ => false end.

Definition invoked (job : string) (c : Collaborator) (effects : list Effect) : Prop :=
  In (Invoke job c) effects.

(** One write after another is in order when the later one is a failure,
    or both are named stages and the later is not an earlier stage. *)
Definition in_order (a b : string) : bool :=
  match stage_of_status a, stage_of_status b with
  | Some _, Some Failed => true
  | Some Failed, Some _ => false
  | Some x, Some y => (stage_rank x <=? stage_rank y)%nat
  | _, _ => false
  end.

Fixpoint monotone (values : list string) : bool :=
  match values with
  | [] => true
  | a :: rest =>
      match stage_of_status a, rest with
      | None, _ => false
      | Some _, [] => true
      | Some _, b :: _ => in_order a b && monotone rest
      end
  end.

(** [needle] occurs in [haystack]. *)
Definition occurs_in (needle haystack : string) : Prop :=
  exists before after, haystack = before +:+ needle +:+ after.

Definition job_of (t : Main.Task) : string :=
  match t with
  | Main.UrlTask job_id _ => job_id
  | Main.LocalFileTask job_id _ => job_id
  end.

(** The local file the analysis of a task runs on, when the task gets as
    far as having one. *)
Definition video_path_of (env : Env) (t : Main.Task) : option string :=
  match t with
  | Main.LocalFileTask _ video_path => Some video_path
  | Main.UrlTask _ url =>
      if Analyzer.url_is_supported url then
        match extract_info env url with
        | Ok p => if String.eqb p "" then None else Some p
        | Raise _ => None
        end
      else None
  end.

(** The keyframes the selector emits for the scenes from index [i] on: the
    1-based position of the scene in the scene list, with the frame read at
    the middle of the scene, for the scenes whose frame decodes. *)
Fixpoint emitted (env : Env) (video_path : string) (i : N) (scene_list : list Scene)
    : list (N * Image) :=
  match scene_list with
  | [] => []
  | scene :: rest =>
      match frame_at env video_path (Analyzer.middle_frame_num scene) with
      | Some image => (i + 1, image)%N :: emitted env video_path (i + 1)%N rest
      | None => emitted env video_path (i + 1)%N rest
      end
  end.

Definition keyframe_path (env : Env) (job_id : string) (n : N) : string :=
  PyStr.path_join (PyStr.path_join (Analyzer.job_dir env job_id) "keyframes")
                  (Analyzer.keyframe_name n).

Definition store_keyframes (files : list (N * Image)) (k : gmap string Image)
    : gmap string Image :=
  foldl (fun acc f => <[Analyzer.keyframe_name f.1 := f.2]> acc) k files.

(** Files numbered by their position among the emitted ones: 1, 2, 3, ... *)
Definition numbered_by_emission (env : Env) (job_id : string) (paths : list string) : Prop :=
  paths = map (fun n => keyframe_path env job_id (N.of_nat n)) (seq 1 (length paths)).

(** Every status write has its event: the published events are the short
    names of the values written, one for one and in the same order. *)
Definition every_transition_published (job : string) (effects : list Effect) : Prop :=
  published job effects = map short_name (status_values job effects).

(** ** Scenarios *)

(** The keyframes directory of a job directory, read as a map. *)
Definition kf (d : JobDir) : gmap string Image := default ∅ (keyframes d).

(** The pipeline function a scheduled task runs, without its wrapper. *)
Definition pipeline (env : Env) (t : Main.Task) : M unit :=
  match t with
  | Main.UrlTask job_id url => Analyzer.run_analysis_pipeline env job_id url
  | Main.LocalFileTask job_id video_path =>
      Analyzer._run_analysis_on_local_file env job_id video_path
  end.

(** A stream of two scenes whose first middle frame (5) does not decode and
    whose second (15) does. *)
Definition env_gap : Env :=
  mkEnv "/srv" (fun _ => Ok "/srv/temp_storage/job/video.mp4") (fun _ => Ok tt)
        (fun _ => Ok "hello") (fun _ => Ok [(0, 10); (10, 20)])
        (fun _ n => if Z.eqb n 15 then Some "frame 15" else None)
        (fun _ image => Some image) (fun _ => Ok "report").

Definition fresh_world : World := mkWorld ∅ ∅ [].

(** A stream with no scene, and one whose only scene is [10, 10) past the
    last decodable frame. *)
Definition env_no_scene : Env :=
  mkEnv "/srv" (fun _ => Ok "v") (fun _ => Ok tt) (fun _ => Ok "hello")
        (fun _ => Ok []) (fun _ _ => None) (fun _ image => Some image)
        (fun _ => Ok "report").

Definition env_degenerate : Env :=
  mkEnv "/srv" (fun _ => Ok "v") (fun _ => Ok tt) (fun _ => Ok "hello")
        (fun _ => Ok [(10, 10)]) (fun _ n => if Z.ltb n 5 then Some "frame" else None)
        (fun _ image => Some image) (fun _ => Ok "report").

(** A session of a client: create the job, subscribe to its stream, and
    let the scheduled task run. *)
Definition session (env : Env) (create : M (string * Main.Task)) : M unit :=
  do created <- create;
  Main.add_connection created.1;;
  Main.run_task env created.2.

(** Creation as C8 has it: a failure when the directory is there, and
    otherwise a directory with a status record in it. *)
Definition creation_as_claimed (create : M (string * Main.Task)) (job : string) (w : World) : Prop :=
  match fs w !! job with
  | Some _ => exists e, (create w).1 = Raise e
  | None => exists d, fs (create w).2 !! job = Some d /\ is_Some (status_txt d)
  end.

(** The generative model is down; everything else works. *)
Definition env_llm_down : Env :=
  mkEnv "/srv" (fun _ => Ok "/srv/temp_storage/job/video.mp4") (fun _ => Ok tt)
        (fun _ => Ok "hello") (fun _ => Ok [(0, 10); (10, 20)])
        (fun _ n => if Z.eqb n 15 then Some "frame 15" else None)
        (fun _ image => Some image) (fun _ => Raise "timeout").

Definition created_world : World := mkWorld {["job" := empty_dir]} {["job" := []]} [].

(** The transcriber is down; the downloader and ffmpeg work. *)
Definition env_whisper_down : Env :=
  mkEnv "/srv" (fun _ => Ok "/srv/temp_storage/job/video.mp4") (fun _ => Ok tt)
        (fun _ => Raise "whisper failed") (fun _ => Ok [(0, 10); (10, 20)])
        (fun _ n => if Z.eqb n 15 then Some "frame 15" else None)
        (fun _ image => Some image) (fun _ => Ok "report").

(** Publishing a list of messages, one [send_event] after the other. *)
Fixpoint publish_all (job_id : string) (messages : list string) : M unit :=
  match messages with
  | [] => ret tt
  | message :: rest => Main.send_event job_id message;; publish_all job_id rest
  end.

(** The text of the failure the URL pipeline records when the download
    gives no file: the downloader's own error, or the pipeline's message
    for an empty file name. *)
Definition download_error (env : Env) (url : string) : string :=
  match extract_info env url with
  | Raise e => e
  | Ok _ => "Failed to download video."
  end.

(** [int(s)] on a string of decimal digits. *)
Definition parse_number (s : string) : option N :=
  N.of_uint <$> NilEmpty.uint_of_string s.


(** The read of a stream that holds the frames [frames]: the frame at an
    index inside the stream, and [at_end] for what the read hands back
    once the stream is positioned past its last frame. *)
Definition stream_read (frames : list Image) (at_end : option Image) (n : Z) : option Image :=
  if (0 <=? n) && (n <? Z.of_nat (length frames)) then frames !! Z.to_nat n else at_end.

Definition stream_env (frames : list Image) (at_end : option Image) (scenes : list Scene) : Env :=
  mkEnv "/srv" (fun _ => Ok "/srv/temp_storage/job/video.mp4") (fun _ => Ok tt)
        (fun _ => Ok "hello") (fun _ => Ok scenes)
        (fun _ => stream_read frames at_end)
        (fun _ image => Some image) (fun _ => Ok "report").

Definition five_frames : list Image := ["f0"; "f1"; "f2"; "f3"; "f4"].


(** C7's rule for a zero-length scene past the end of a stream of
    [frame_count] frames: the scene is skipped. *)
Definition skips_past_end (env : Env) (video_path job : string) (w : World)
    (frame_count : Z) : Prop :=
  forall s, frame_count <= s ->
    detect_scenes env video_path = Ok [(s, s)] ->
    (Analyzer._extract_keyframes env video_path job w).1 = Ok [].

(** The text [str(uuid.uuid4())] has: 8-4-4-4-12 lowercase hexadecimal
    digits with hyphens between the groups. *)
Definition is_hex_digit (c : ascii) : bool :=
  let n := N_of_ascii c in
  ((48 <=? n) && (n <=? 57) || (97 <=? n) && (n <=? 102))%N.

Fixpoint has_shape (shape : list bool) (s : string) : bool :=
  match shape, s with
  | [], EmptyString => true
  | true :: shape', String c s' => is_hex_digit c && has_shape shape' s'
  | false :: shape', String c s' => Ascii.eqb c "-" && has_shape shape' s'
  | _, _ => false
  end.

Definition is_uuid4_text (s : string) : bool :=
  has_shape (repeat true 8 ++ [false] ++ repeat true 4 ++ [false] ++ repeat true 4
               ++ [false] ++ repeat true 4 ++ [false] ++ repeat true 12) s.

(** * Properties *)

(** ** Substring search *)

Lemma startswith_iff (s p : string) :
  PyStr.startswith s p = true <-> exists rest, s = p +:+ rest.
Proof.
  revert s; induction p as [|a p IH]; intros s; cbn.
  - split; [intros _; now exists s | reflexivity].
  - destruct s as [|b s].
    + split; [discriminate | intros [rest H]; discriminate H].
    + destruct (Ascii.eqb_spec a b) as [->|Hne].
      * rewrite IH. split; intros [rest H]; exists rest.
        -- now rewrite H.
        -- now injection H.
      * split; [discriminate | intros [rest H]; injection H; congruence].
Qed.

Lemma contains_iff (needle haystack : string) :
  PyStr.contains needle haystack = true <-> occurs_in needle haystack.
Proof.
  unfold occurs_in. induction haystack as [|c h IH]; cbn [PyStr.contains].
  - rewrite startswith_iff. split.
    + intros [rest H]. exists "", rest. exact H.
    + intros [[|b before] [after H]]; [now exists after |discriminate H].
  - rewrite orb_true_iff, startswith_iff, IH. split.
    + intros [[rest H] | (before & after & H)].
      * exists "", rest. exact H.
      * exists (String c before), after. cbn. now rewrite H.
    + intros [[|b before] [after H]].
      * left. now exists after.
      * right. exists before, after. cbn in H. now injection H.
Qed.

Lemma occurs_in_suffix (before s : string) : occurs_in s (before +:+ s).
Proof.
  exists before, "". f_equal.
  induction s as [|c s IH]; [reflexivity |].
  change (String c s = String c (s +:+ "")). f_equal. exact IH.
Qed.

Lemma occurs_in_append (a s rest : string) :
  occurs_in s rest -> occurs_in s (a +:+ rest).
Proof.
  intros (before & after & ->). exists (a +:+ before), after.
  induction a as [|c a IH]; [reflexivity|].
  change (String c (a +:+ before +:+ s +:+ after)
          = String c ((a +:+ before) +:+ s +:+ after)).
  f_equal. exact IH.
Qed.

(** ** The keyframe selector *)

Lemma round53_small (k : Z) : Z.abs k < 2 ^ 53 -> PyStr.round53 k = k.
Proof.
  intros H. unfold PyStr.round53. cbv zeta.
  destruct (Z.ltb_spec (Z.abs k) (2 ^ 53)); [reflexivity|lia].
Qed.

(** Where no rounding happens: the three floats of the computation are
    exact as long as they stay below 2^53 halves. *)
Lemma middle_frame_num_exact (start_frame end_frame : Z) :
  Z.abs (2 * start_frame) < 2 ^ 53 ->
  Z.abs (end_frame - start_frame) < 2 ^ 53 ->
  Z.abs (start_frame + end_frame) < 2 ^ 53 ->
  Analyzer.middle_frame_num (start_frame, end_frame)
  = Z.quot (start_frame + end_frame) 2.
Proof.
  intros H1 H2 H3.
  unfold Analyzer.middle_frame_num, Analyzer.py_int, PyStr.binary64.
  cbn [Qnum Qden inject_Z Qplus Qdiv Qmult Qinv Pos.mul].
  change (Z.pos (1 * 2)) with 2. change (Z.pos (2 * 2)) with 4.
  rewrite Z.div_1_r, (round53_small (2 * start_frame)) by exact H1.
  replace (2 * ((end_frame - start_frame) * 1)) with ((end_frame - start_frame) * 2) by lia.
  rewrite Z.div_mul by lia. rewrite (round53_small (end_frame - start_frame)) by exact H2.
  replace (2 * (2 * start_frame * 2 + (end_frame - start_frame) * 2))
    with ((start_frame + end_frame) * 4) by lia.
  rewrite Z.div_mul by lia. now rewrite round53_small.
Qed.

(** From 2^52 on the sum is rounded: the middle of [2^52+1, 2^52+2) comes
    out as its end. *)
Example middle_frame_num_rounds :
  Analyzer.middle_frame_num (2 ^ 52 + 1, 2 ^ 52 + 2) = 2 ^ 52 + 2.
Proof. vm_compute. reflexivity. Qed.

Lemma middle_frame_num_degenerate (s : Z) :
  Z.abs s < 2 ^ 52 -> Analyzer.middle_frame_num (s, s) = s.
Proof.
  intros H. assert (E : 2 ^ 53 = 2 * 2 ^ 52) by reflexivity.
  rewrite middle_frame_num_exact by (rewrite ?Z.sub_diag; lia).
  replace (s + s) with (s * 2) by lia. apply Z.quot_mul. lia.
Qed.

(** ** Running the code on a world whose job directory is known

    Every step below is stated on a world of the shape
    [mkWorld (<[job := d]> f) c h]: the directory of the job holds [d]. *)

Lemma world_shape (w : World) (job : string) (d : JobDir) :
  fs w !! job = Some d ->
  w = mkWorld (<[job := d]> (fs w)) (connections w) (history w).
Proof. intros H. destruct w as [f c h]; cbn in *. now rewrite insert_id. Qed.

Section Steps.
Variables (env : Env) (job : string).
Variables (f : gmap string JobDir) (c : gmap string (list string)).

Lemma write_file_at path upd d h :
  write_file job path upd (mkWorld (<[job := d]> f) c h)
  = (Ok tt, mkWorld (<[job := upd d]> f) c h).
Proof.
  unfold write_file; cbn [fs connections history].
  now rewrite lookup_insert_eq, insert_insert_eq.
Qed.

Lemma modify_dir_at upd d h :
  modify_dir job upd (mkWorld (<[job := d]> f) c h)
  = (Ok tt, mkWorld (<[job := upd d]> f) c h).
Proof.
  unfold modify_dir; cbn [fs connections history].
  now rewrite lookup_insert_eq, insert_insert_eq.
Qed.

Lemma makedirs_at d h :
  makedirs job (mkWorld (<[job := d]> f) c h) = (Ok tt, mkWorld (<[job := d]> f) c h).
Proof. unfold makedirs; cbn [fs]. now rewrite lookup_insert_eq. Qed.

Lemma write_status_at value d h :
  Analyzer.write_status env job value (mkWorld (<[job := d]> f) c h)
  = (Ok tt, mkWorld (<[job := set_status value d]> f) c (h ++ [StatusWrite job value])).
Proof. unfold Analyzer.write_status, bind. now rewrite write_file_at. Qed.

Lemma remove_old_videos_at d h :
  Analyzer.remove_old_videos env job (mkWorld (<[job := d]> f) c h)
  = (Ok tt, mkWorld (<[job := set_video None d]> f) c h).
Proof.
  unfold Analyzer.remove_old_videos; cbn [fs].
  rewrite lookup_insert_eq. apply modify_dir_at.
Qed.

Lemma ensure_keyframes (d : JobDir) :
  match keyframes d with Some _ => d | None => set_keyframes ∅ d end
  = set_keyframes (kf d) d.
Proof. destruct d as [? ? ? ? ? [k|]]; reflexivity. Qed.

Lemma makedirs_keyframes_at d h :
  Analyzer.makedirs_keyframes job (mkWorld (<[job := d]> f) c h)
  = (Ok tt, mkWorld (<[job := set_keyframes (kf d) d]> f) c h).
Proof.
  unfold Analyzer.makedirs_keyframes, bind.
  now rewrite makedirs_at, modify_dir_at, ensure_keyframes.
Qed.

Lemma listdir_keyframes_at dir d h :
  Analyzer.listdir_keyframes job dir (mkWorld (<[job := d]> f) c h)
  = (match keyframes d with
     | Some k => Ok (map_to_list k)
     | None => Raise (no_such_file dir)
     end, mkWorld (<[job := d]> f) c h).
Proof.
  unfold Analyzer.listdir_keyframes; cbn [fs]. rewrite lookup_insert_eq.
  now destruct (keyframes d).
Qed.

Lemma save_keyframes_at video_path dir scene_list :
  forall i saved k d h,
    Analyzer.save_keyframes env video_path job dir i scene_list saved
      (mkWorld (<[job := set_keyframes k d]> f) c h)
    = (Ok (saved ++ map (fun e => PyStr.path_join dir (Analyzer.keyframe_name e.1))
                        (emitted env video_path i scene_list)),
       mkWorld (<[job := set_keyframes
                           (store_keyframes (emitted env video_path i scene_list) k) d]> f)
               c h).
Proof.
  induction scene_list as [|scene rest IH]; intros i saved k d h;
    cbn [Analyzer.save_keyframes emitted].
  - cbn. now rewrite app_nil_r.
  - destruct (frame_at env video_path (Analyzer.middle_frame_num scene)) as [image|].
    + unfold bind, Analyzer.imwrite. rewrite modify_dir_at.
      cbn [keyframes set_keyframes].
      change (mkJobDir _ _ _ _ _ (Some ?k')) with (set_keyframes k' d).
      rewrite IH. cbn [map store_keyframes foldl fst snd].
      now rewrite <- app_assoc.
    + apply IH.
Qed.

Lemma extract_keyframes_at video_path d h :
  Analyzer._extract_keyframes env video_path job (mkWorld (<[job := d]> f) c h)
  = match detect_scenes env video_path with
    | Ok scene_list =>
        (Ok (map (fun e => keyframe_path env job e.1) (emitted env video_path 0%N scene_list)),
         mkWorld (<[job := set_keyframes
                             (store_keyframes (emitted env video_path 0%N scene_list) (kf d)) d]> f)
                 c (h ++ [Invoke job SceneDetector]))
    | Raise e =>
        (Raise e, mkWorld (<[job := set_keyframes (kf d) d]> f) c
                          (h ++ [Invoke job SceneDetector]))
    end.
Proof.
  unfold Analyzer._extract_keyframes, bind at 1.
  rewrite makedirs_keyframes_at. unfold bind, log, lift_result.
  cbn [fs connections history].
  destruct (detect_scenes env video_path) as [scene_list|e]; [|reflexivity].
  now rewrite save_keyframes_at.
Qed.

End Steps.

Lemma makedirs_keyframes_any (job : string) (w : World) :
  Analyzer.makedirs_keyframes job w
  = (Ok tt,
     let d0 := default empty_dir (fs w !! job) in
     mkWorld (<[job := set_keyframes (kf d0) d0]> (fs w)) (connections w) (history w)).
Proof.
  destruct (fs w !! job) as [d|] eqn:Hd; cbn [default].
  - rewrite (world_shape w job d Hd) at 1. now rewrite makedirs_keyframes_at.
  - unfold Analyzer.makedirs_keyframes, bind, makedirs. rewrite Hd.
    now rewrite modify_dir_at, ensure_keyframes.
Qed.

(** A run of the selector, on any world. *)
Lemma extract_keyframes_any (env : Env) (video_path job : string) (w : World) :
  Analyzer._extract_keyframes env video_path job w
  = let d0 := default empty_dir (fs w !! job) in
    match detect_scenes env video_path with
    | Ok scene_list =>
        (Ok (map (fun e => keyframe_path env job e.1) (emitted env video_path 0%N scene_list)),
         mkWorld (<[job := set_keyframes
                             (store_keyframes (emitted env video_path 0%N scene_list) (kf d0))
                             d0]> (fs w))
                 (connections w) (history w ++ [Invoke job SceneDetector]))
    | Raise e =>
        (Raise e, mkWorld (<[job := set_keyframes (kf d0) d0]> (fs w)) (connections w)
                          (history w ++ [Invoke job SceneDetector]))
    end.
Proof.
  unfold Analyzer._extract_keyframes, bind at 1.
  rewrite makedirs_keyframes_any. cbv zeta. unfold bind, log, lift_result.
  cbn [fs connections history].
  destruct (detect_scenes env video_path) as [scene_list|e]; [|reflexivity].
  now rewrite save_keyframes_at.
Qed.

Lemma extract_keyframes_result (env : Env) (video_path job : string) (w : World) :
  (Analyzer._extract_keyframes env video_path job w).1
  = match detect_scenes env video_path with
    | Ok scene_list =>
        Ok (map (fun e => keyframe_path env job e.1) (emitted env video_path 0%N scene_list))
    | Raise e => Raise e
    end.
Proof.
  rewrite extract_keyframes_any. cbv zeta.
  now destruct (detect_scenes env video_path).
Qed.

Lemma emitted_above (env : Env) (video_path : string) (scene_list : list Scene) :
  forall i e, In e (emitted env video_path i scene_list) -> (i < e.1)%N.
Proof.
  induction scene_list as [|scene rest IH]; intros i e; cbn [emitted]; [intros []|].
  destruct (frame_at env video_path (Analyzer.middle_frame_num scene)).
  - intros [<-|H]; cbn; [lia | apply IH in H; lia].
  - intros H. apply IH in H. lia.
Qed.

(** An emitted keyframe carries the 1-based position of its scene. *)
Lemma emitted_position (env : Env) (video_path : string) (scene_list : list Scene) :
  forall i n image,
    In (n, image) (emitted env video_path i scene_list) <->
    exists (p : nat) scene,
      scene_list !! p = Some scene /\ n = (i + N.of_nat p + 1)%N /\
      frame_at env video_path (Analyzer.middle_frame_num scene) = Some image.
Proof.
  induction scene_list as [|scene rest IH]; intros i n image; cbn [emitted].
  - split; [intros [] | intros (p & s & H & _); destruct p; discriminate H].
  - assert (Hrest : In (n, image) (emitted env video_path (i + 1) rest) <->
                    exists (p : nat) s, rest !! p = Some s /\ n = (i + N.of_nat (S p) + 1)%N /\
                      frame_at env video_path (Analyzer.middle_frame_num s) = Some image).
    { rewrite IH. split; intros (p & s & H1 & H2 & H3); exists p, s;
        (split; [exact H1 | split; [lia | exact H3]]). }
    destruct (frame_at env video_path (Analyzer.middle_frame_num scene)) as [img|] eqn:Hf.
    + cbn [In]. rewrite Hrest. split.
      * intros [H | (p & s & H1 & H2 & H3)].
        -- injection H as <- <-. exists 0%nat, scene. cbn. repeat split; [lia | exact Hf].
        -- exists (S p), s. auto.
      * intros ([|p] & s & H1 & H2 & H3).
        -- left. cbn in H1. injection H1 as <-. rewrite Hf in H3. injection H3 as <-.
           f_equal. lia.
        -- right. exists p, s. auto.
    + rewrite Hrest. split.
      * intros (p & s & H1 & H2 & H3). exists (S p), s. auto.
      * intros ([|p] & s & H1 & H2 & H3).
        -- cbn in H1. injection H1 as <-. congruence.
        -- exists p, s. auto.
Qed.

Lemma emitted_sorted (env : Env) (video_path : string) (scene_list : list Scene) :
  forall i, StronglySorted N.lt (map fst (emitted env video_path i scene_list)).
Proof.
  induction scene_list as [|scene rest IH]; intros i; cbn [emitted]; [constructor|].
  destruct (frame_at env video_path (Analyzer.middle_frame_num scene)); [|apply IH].
  cbn [map fst]. constructor; [apply IH|].
  apply List.Forall_forall. intros n Hn. apply in_map_iff in Hn as (e & <- & He).
  now apply emitted_above in He.
Qed.

(** C5: for a scene [start, end) of non-negative frame numbers below 2^52,
    where the floats of the computation are exact, the frame the selector
    reads is start + floor((end - start) / 2), the midpoint rounded
    down. *)
Theorem C5_midpoint_floor (start_frame end_frame : Z) :
  0 <= start_frame -> start_frame <= end_frame -> end_frame < 2 ^ 52 ->
  Analyzer.middle_frame_num (start_frame, end_frame)
  = start_frame + (end_frame - start_frame) / 2.
Proof.
  intros H0 H1 H2. assert (E : 2 ^ 53 = 2 * 2 ^ 52) by reflexivity.
  rewrite middle_frame_num_exact by lia.
  rewrite Z.quot_div_nonneg by lia.
  replace (start_frame + end_frame) with (start_frame * 2 + (end_frame - start_frame)) by lia.
  now rewrite Z.div_add_l by lia.
Qed.

Lemma C5_midpoint_floor_witness :
  Analyzer.middle_frame_num (10, 25) = 10 + (25 - 10) / 2.
Proof. apply C5_midpoint_floor; [lia | lia | reflexivity]. Defined.

Example format_03d_7 : PyStr.format_03d 7 = "007".
Proof. reflexivity. Qed.

Example format_03d_42 : PyStr.format_03d 42 = "042".
Proof. reflexivity. Qed.

Example format_03d_1234 : PyStr.format_03d 1234 = "1234".
Proof. reflexivity. Qed.

Lemma parse_decimal (n : N) : parse_number (PyStr.decimal n) = Some n.
Proof.
  unfold parse_number, PyStr.decimal, NilZero.string_of_uint.
  destruct (N.to_uint n) as [|d|d|d|d|d|d|d|d|d|d] eqn:E;
    [rewrite <- (DecimalN.Unsigned.of_to n), E; reflexivity|..];
    rewrite NilEmpty.usu, <- E; cbn [fmap option_fmap option_map];
    now rewrite DecimalN.Unsigned.of_to.
Qed.





(** C7, as stated, fails: the selector has no range check.  On a stream of
    five frames whose read past the end hands back something other than
    None, the zero-length scene [10, 10) is not skipped: keyframe_001.jpg
    is emitted. *)
Lemma C7_past_end_not_skipped :
  (Analyzer._extract_keyframes (stream_env five_frames (Some "False") [(10, 10)])
     "video.mp4" "job" fresh_world).1
  = Ok ["/srv/temp_storage/job/keyframes/keyframe_001.jpg"]
  /\ ~ skips_past_end (stream_env five_frames (Some "False") [(10, 10)])
         "video.mp4" "job" fresh_world 5.
Proof.
  assert (H : (Analyzer._extract_keyframes
                 (stream_env five_frames (Some "False") [(10, 10)])
                 "video.mp4" "job" fresh_world).1
              = Ok ["/srv/temp_storage/job/keyframes/keyframe_001.jpg"]).
  { rewrite extract_keyframes_result. reflexivity. }
  split; [exact H|]. intros Hskip.
  specialize (Hskip 10 ltac:(lia) eq_refl). rewrite H in Hskip. discriminate Hskip.
Qed.

(** C7, amended: with no scene the selector returns the empty list.  For
    a zero-length scene [s, s) with s below 2^52 in size the middle frame
    is s; the selector seeks there without a range check and reads: when
    the read hands back None the scene is skipped and the result is the
    empty list, and otherwise the result is the one file keyframe 1, which
    holds what the read handed back. *)
Theorem C7_edge_cases (env : Env) (video_path job : string) (w : World) :
  (detect_scenes env video_path = Ok [] ->
   (Analyzer._extract_keyframes env video_path job w).1 = Ok [])
  /\ forall s : Z,
       Z.abs s < 2 ^ 52 ->
       Analyzer.middle_frame_num (s, s) = s
       /\ (detect_scenes env video_path = Ok [(s, s)] ->
           (Analyzer._extract_keyframes env video_path job w).1
           = Ok (match frame_at env video_path s with
                 | Some _ => [keyframe_path env job 1]
                 | None => []
                 end)
           /\ forall image, frame_at env video_path s = Some image ->
               exists d' k,
                 fs (Analyzer._extract_keyframes env video_path job w).2 !! job = Some d'
                 /\ keyframes d' = Some k
                 /\ k !! Analyzer.keyframe_name 1 = Some image).
Proof.
  split; [|intros s Hs; split; [now apply middle_frame_num_degenerate|]].
  - intros Hd. rewrite extract_keyframes_result. now rewrite Hd.
  - intros Hd. pose proof (middle_frame_num_degenerate s Hs) as Hmid. split.
    + rewrite extract_keyframes_result, Hd. cbn [emitted].
      rewrite Hmid. now destruct (frame_at env video_path s).
    + intros image Hf. rewrite extract_keyframes_any, Hd. cbv zeta.
      cbn [emitted snd fs]. rewrite Hmid, Hf. cbn [store_keyframes foldl fst snd].
      eexists. eexists. split; [apply lookup_insert_eq|].
      split; [reflexivity|]. apply lookup_insert_eq.
Qed.

(** No scene; the scene [3, 3) inside a stream of five frames; the scene
    [10, 10) past the end of a stream whose read gives None there. *)
Lemma C7_edge_cases_witness :
  (Analyzer._extract_keyframes env_no_scene "video.mp4" "job" fresh_world).1 = Ok []
  /\ ((Analyzer._extract_keyframes (stream_env five_frames None [(3, 3)])
         "video.mp4" "job" fresh_world).1
      = Ok [keyframe_path (stream_env five_frames None [(3, 3)]) "job" 1]
      /\ exists d' k,
           fs (Analyzer._extract_keyframes (stream_env five_frames None [(3, 3)])
                 "video.mp4" "job" fresh_world).2 !! "job" = Some d'
           /\ keyframes d' = Some k
           /\ k !! Analyzer.keyframe_name 1 = Some "f3")
  /\ (Analyzer._extract_keyframes env_degenerate "video.mp4" "job" fresh_world).1 = Ok [].
Proof.
  split; [|split].
  - apply (proj1 (C7_edge_cases env_no_scene "video.mp4" "job" fresh_world)). reflexivity.
  - destruct (proj2 (C7_edge_cases (stream_env five_frames None [(3, 3)])
                       "video.mp4" "job" fresh_world) 3 eq_refl) as [_ H].
    destruct (H eq_refl) as [H1 H2]. split; [exact H1|]. apply H2. reflexivity.
  - destruct (proj2 (C7_edge_cases env_degenerate "video.mp4" "job" fresh_world) 10 eq_refl)
      as [_ H].
    apply (proj1 (H eq_refl)).
Defined.

(** ** Running the pipeline *)

Lemma run_task_pipeline (env : Env) (t : Main.Task) :
  Main.run_task env t
  = try_except (pipeline env t;; Main.send_event (job_of t) "complete")
               (fun _ => Main.send_event (job_of t) "error").
Proof. destruct t; reflexivity. Qed.

Lemma write_status_absent (env : Env) (job value : string) (w : World) :
  fs w !! job = None ->
  Analyzer.write_status env job value w
  = (Raise (no_such_file (Analyzer.status_file env job)), w).
Proof. intros H. unfold Analyzer.write_status, bind, write_file. now rewrite H. Qed.

(** Symbolic execution: unfold the code down to its steps, rewrite each
    step with its equation above, and split on what a tool answers. *)
Ltac unfold_code :=
  unfold pipeline, Analyzer.run_analysis_pipeline, Analyzer._run_analysis_on_local_file,
    Analyzer._download_video, Analyzer._extract_audio, Analyzer._transcribe_audio,
    Analyzer._generate_report, Analyzer.write_report;
  unfold bind, try_except, try_finally, ret, raise, lift_result, log.

Ltac step :=
  first
    [ rewrite write_status_at | rewrite write_file_at | rewrite modify_dir_at
    | rewrite makedirs_keyframes_at | rewrite extract_keyframes_at
    | rewrite remove_old_videos_at | rewrite listdir_keyframes_at | rewrite makedirs_at
    | progress cbn beta iota zeta delta
                   [fs connections history fst snd negb
                    status_txt report_md video audio_mp3 audio_txt keyframes
                    set_status set_report set_video set_audio_mp3 set_audio_txt
                    set_keyframes] ].

Ltac exec := unfold_code; repeat step.

Ltac case_oracle :=
  match goal with
  | H : ?x = _ |- context [match ?x with _ => _ end] => rewrite H
  | |- context [extract_info ?env ?x] =>
      destruct (extract_info env x) as [?video_path|?e]
  | |- context [if String.eqb ?p "" then _ else _] =>
      destruct (String.eqb p "")
  | |- context [ffmpeg_run ?env ?x] => destruct (ffmpeg_run env x) as [[]|?e]
  | |- context [whisper_transcribe ?env ?x] =>
      destruct (whisper_transcribe env x) as [?transcript|?e]
  | |- context [detect_scenes ?env ?x] =>
      destruct (detect_scenes env x) as [?scene_list|?e]
  | |- context [generate_content ?env ?x] =>
      destruct (generate_content env x) as [?report|?e]
  end.

Ltac run_all := exec; repeat (case_oracle; exec).

Ltac tidy_history := rewrite <- ?app_assoc; cbn [app].

Ltac leaf_status :=
  unfold status_values; cbn [omap list_omap]; rewrite ?String.eqb_refl;
  vm_compute; reflexivity.

Lemma pipeline_without_directory_eq (env : Env) (t : Main.Task) (w : World) :
  fs w !! job_of t = None ->
  pipeline env t w = (Raise (no_such_file (Analyzer.status_file env (job_of t))), w).
Proof.
  intros Hd.
  destruct t as [job url|job video_path]; cbn [job_of] in *;
    [unfold pipeline, Analyzer.run_analysis_pipeline;
     destruct (Analyzer.url_is_supported url); cbn [negb]|];
    unfold_code; rewrite !(write_status_absent env _ _ w Hd); cbn beta iota;
    rewrite ?(write_status_absent env _ _ w Hd); reflexivity.
Qed.

Lemma pipeline_shape (env : Env) (t : Main.Task) (w : World) :
  exists pre,
    history (pipeline env t w).2 = history w ++ pre
    /\ connections (pipeline env t w).2 = connections w
    /\ forallb (fun ef => negb (is_publish ef)) pre = true
    /\ monotone (status_values (job_of t) pre) = true.
Proof.
  destruct (fs w !! job_of t) as [d|] eqn:Hd.
  - rewrite (world_shape w _ d Hd). cbn [history connections].
    destruct t as [job url|job video_path]; cbn [job_of];
      [unfold pipeline, Analyzer.run_analysis_pipeline;
       destruct (Analyzer.url_is_supported url); cbn [negb]|];
      run_all; tidy_history;
      (eexists; split; [reflexivity|split; [reflexivity|split; [reflexivity|leaf_status]]]).
  - exists []. rewrite app_nil_r.
    destruct t as [job url|job video_path]; cbn [job_of] in Hd;
      [unfold pipeline, Analyzer.run_analysis_pipeline;
       destruct (Analyzer.url_is_supported url); cbn [negb]|];
      unfold_code; rewrite !(write_status_absent env _ _ w Hd); cbn beta iota;
      rewrite ?(write_status_absent env _ _ w Hd); auto.
Qed.

Lemma status_values_app (job : string) (l1 l2 : list Effect) :
  status_values job (l1 ++ l2) = status_values job l1 ++ status_values job l2.
Proof. unfold status_values. apply omap_app. Qed.

(** What a run of a scheduled task adds to the history: the effects of the
    pipeline, then the one event of the wrapper when a subscriber is there. *)
Lemma run_task_effects (env : Env) (t : Main.Task) (w : World) :
  exists pre message,
    Main.is_terminal message = true
    /\ forallb (fun ef => negb (is_publish ef)) pre = true
    /\ monotone (status_values (job_of t) pre) = true
    /\ match connections w !! job_of t with
       | Some queue =>
           effects_of (Main.run_task env t) w = pre ++ [Publish (job_of t) message]
           /\ connections (Main.run_task env t w).2 !! job_of t = Some (queue ++ [message])
       | None => effects_of (Main.run_task env t) w = pre
       end.
Proof.
  destruct (pipeline_shape env t w) as (pre & Hh & Hc & Hp & Hm).
  rewrite run_task_pipeline. unfold effects_of, try_except, bind.
  destruct (pipeline env t w) as [[[]|e] w']; cbn [fst snd] in *;
    [exists pre, "complete" | exists pre, "error"];
    (split; [reflexivity|split; [exact Hp|split; [exact Hm|]]]);
    unfold Main.send_event; rewrite Hc;
    destruct (connections w !! job_of t) as [queue|]; cbn [snd history connections];
    rewrite Hh, <- ?app_assoc, drop_app_length; try reflexivity;
    (split; [reflexivity | apply lookup_insert_eq]).
Qed.

(** ** The status record and the progress stream *)

(** C4: the values a run writes to the status record of its job never go
    back to an earlier named stage; once a failure is written only
    failures follow. *)
Theorem C4_status_writes_monotone (env : Env) (t : Main.Task) (w : World) :
  monotone (status_values (job_of t) (effects_of (Main.run_task env t) w)) = true.
Proof.
  destruct (run_task_effects env t w) as (pre & message & _ & _ & Hm & H).
  destruct (connections w !! job_of t) as [queue|].
  - destruct H as [-> _]. rewrite status_values_app.
    cbn [status_values omap list_omap]. now rewrite app_nil_r.
  - now rewrite H.
Qed.

(** A stream whose queue holds non-terminal messages and then a terminal
    one delivers all of them, in the order they were put. *)
Lemma event_generator_delivers (queue : list string) (message : string) :
  forallb (fun m => negb (Main.is_terminal m)) queue = true ->
  Main.is_terminal message = true ->
  Main.event_generator (queue ++ [message]) = (queue ++ [message], []).
Proof.
  intros Hq Hm. induction queue as [|m queue IH]; cbn [app Main.event_generator].
  - now rewrite Hm.
  - cbn [forallb] in Hq. apply andb_true_iff in Hq as [Hn Hq].
    apply negb_true_iff in Hn. rewrite Hn, (IH Hq). reflexivity.
Qed.

(** C2, as stated, fails: an uploaded video that goes through every stage
    has five values written to its status record and one event, "complete",
    on the stream of its subscriber. *)
Lemma C2_stage_events_missing :
  status_values "job" (effects_of (session env_gap (Main.analyze_video_upload "job")) fresh_world)
  = ["extracting_audio"; "transcribing"; "extracting_frames"; "generating_report"; "complete"]
  /\ published "job" (effects_of (session env_gap (Main.analyze_video_upload "job")) fresh_world)
     = ["complete"]
  /\ ~ every_transition_published "job"
         (effects_of (session env_gap (Main.analyze_video_upload "job")) fresh_world).
Proof.
  split; [|split]; [vm_compute; reflexivity ..|].
  unfold every_transition_published. vm_compute. discriminate.
Qed.

(** What a run of a task with a subscriber adds to the history: the
    effects of the pipeline function, then the one event of the wrapper,
    "complete" when the pipeline function returned and "error" when it
    raised. *)
Lemma run_task_trace (env : Env) (t : Main.Task) (w : World) (queue : list string) :
  connections w !! job_of t = Some queue ->
  let message := match (pipeline env t w).1 with Ok _ => "complete" | Raise _ => "error" end in
  effects_of (Main.run_task env t) w
  = effects_of (pipeline env t) w ++ [Publish (job_of t) message]
  /\ connections (Main.run_task env t w).2 !! job_of t = Some (queue ++ [message])
  /\ forallb (fun ef => negb (is_publish ef)) (effects_of (pipeline env t) w) = true.
Proof.
  intros Hq. cbv zeta.
  destruct (pipeline_shape env t w) as (pre & Hh & Hc & Hp & _).
  rewrite run_task_pipeline. unfold effects_of, try_except, bind.
  destruct (pipeline env t w) as [[[]|e] w']; cbn [fst snd] in *;
    unfold Main.send_event; rewrite Hc, Hq; cbn [snd history connections];
    rewrite Hh, <- ?app_assoc, !drop_app_length;
    (split; [reflexivity|split; [apply lookup_insert_eq|exact Hp]]).
Qed.

(** How the last status value a pipeline function wrote tells how it
    ended: after "complete" it returned, and the analysis of a local file
    that wrote a failure last raised. *)
Lemma pipeline_verdict (env : Env) (t : Main.Task) (w : World) (v : string) :
  last (status_values (job_of t) (effects_of (pipeline env t) w)) = Some v ->
  (v = "complete" -> (pipeline env t w).1 = Ok tt)
  /\ match t with
     | Main.LocalFileTask _ _ =>
         stage_of_status v = Some Failed -> exists e, (pipeline env t w).1 = Raise e
     | Main.UrlTask _ _ => True
     end.
Proof.
  unfold effects_of. destruct (fs w !! job_of t) as [d|] eqn:Hd.
  - rewrite (world_shape w _ d Hd). cbn [history].
    destruct t as [job url|job video_path]; cbn [job_of];
      [unfold pipeline, Analyzer.run_analysis_pipeline;
       destruct (Analyzer.url_is_supported url); cbn [negb]|];
      run_all; tidy_history; rewrite drop_app_length;
      unfold status_values; cbn [omap list_omap]; rewrite ?String.eqb_refl;
      cbn [last]; intros Hv; injection Hv as <-;
      (split; [first [reflexivity | intros H; vm_compute in H; discriminate H]
              |first [exact I | intros H; vm_compute in H; discriminate H
                     | intros _; eexists; reflexivity]]).
  - rewrite pipeline_without_directory_eq by exact Hd. cbn [snd].
    rewrite drop_ge by lia. discriminate.
Qed.

(** C2, amended: for a job with a live subscriber, a run publishes exactly
    one event, a terminal one, appended at the end of the queue of the
    subscriber after every status write of the run; it carries the short
    name of the last status value when that is "complete", and "error" when
    an uploaded file's analysis ended in a failure.  The stage transitions
    before it are written to the status record only. *)
Theorem C2_one_terminal_event (env : Env) (t : Main.Task) (w : World) (queue : list string) :
  connections w !! job_of t = Some queue ->
  exists pre message,
    Main.is_terminal message = true
    /\ effects_of (Main.run_task env t) w = pre ++ [Publish (job_of t) message]
    /\ forallb (fun ef => negb (is_publish ef)) pre = true
    /\ connections (Main.run_task env t w).2 !! job_of t = Some (queue ++ [message])
    /\ (forallb (fun m => negb (Main.is_terminal m)) queue = true ->
        Main.event_generator (queue ++ [message]) = (queue ++ [message], []))
    /\ (forall v, last (status_values (job_of t) pre) = Some v ->
          (v = "complete" -> message = "complete")
          /\ match t with
             | Main.LocalFileTask _ _ => stage_of_status v = Some Failed -> message = "error"
             | Main.UrlTask _ _ => True
             end).
Proof.
  intros Hq. destruct (run_task_trace env t w queue Hq) as (He & Hc & Hp).
  exists (effects_of (pipeline env t) w).
  exists (match (pipeline env t w).1 with Ok _ => "complete" | Raise _ => "error" end).
  assert (Ht : Main.is_terminal
                 (match (pipeline env t w).1 with Ok _ => "complete" | Raise _ => "error" end)
               = true) by (destruct (pipeline env t w).1; reflexivity).
  repeat split; auto.
  - intros Hn. now apply event_generator_delivers.
  - intros ->. destruct (pipeline_verdict env t w "complete" H) as [Hok _].
    now rewrite Hok.
  - destruct (pipeline_verdict env t w v H) as [_ Hraise].
    destruct t; [exact I|]. intros Hf. destruct (Hraise Hf) as [e ->]. reflexivity.
Qed.

(** An upload whose transcription fails, with a subscriber: the event is
    "error". *)
Lemma C2_one_terminal_event_witness :
  exists pre message,
    Main.is_terminal message = true
    /\ effects_of (Main.run_task env_whisper_down (Main.LocalFileTask "job" "video.mp4"))
                  created_world
       = pre ++ [Publish "job" message]
    /\ forallb (fun ef => negb (is_publish ef)) pre = true
    /\ connections (Main.run_task env_whisper_down (Main.LocalFileTask "job" "video.mp4")
                      created_world).2 !! "job"
       = Some ([] ++ [message])
    /\ (forallb (fun m => negb (Main.is_terminal m)) [] = true ->
        Main.event_generator ([] ++ [message]) = ([] ++ [message], []))
    /\ (forall v, last (status_values "job" pre) = Some v ->
          (v = "complete" -> message = "complete")
          /\ (stage_of_status v = Some Failed -> message = "error")).
Proof.
  apply (C2_one_terminal_event env_whisper_down (Main.LocalFileTask "job" "video.mp4")
           created_world).
  reflexivity.
Defined.

(** A URL the gate rejects, on a job with a subscriber: the failure goes to
    the status record, nothing else runs, and the wrapper publishes
    "complete". *)
Lemma rejected_url_run (env : Env) (job url : string) (f : gmap string JobDir)
    (c : gmap string (list string)) (h : list Effect) (d : JobDir) (queue : list string) :
  Analyzer.url_is_supported url = false ->
  c !! job = Some queue ->
  Main.run_analysis_and_notify env job url (mkWorld (<[job := d]> f) c h)
  = (Ok tt,
     mkWorld (<[job := set_status ("Error: " +:+ Analyzer.unsupported_url_message) d]> f)
             (<[job := queue ++ ["complete"]]> c)
             (h ++ [StatusWrite job ("Error: " +:+ Analyzer.unsupported_url_message);
                    Publish job "complete"])).
Proof.
  intros Hu Hq. unfold Main.run_analysis_and_notify, Analyzer.run_analysis_pipeline.
  rewrite Hu. cbn [negb]. exec. unfold Main.send_event. cbn [connections].
  rewrite Hq. cbn [fs connections history]. now tidy_history.
Qed.

(** C1: the code does not do what the claim says.  A profile URL is
    rejected by the gate, the failure is written to the status record and
    nothing is downloaded, but the event the subscriber receives is
    "complete". *)
Theorem C1_rejected_url_publishes_complete :
  let url := "https://www.tiktok.com/@someuser" in
  let w := (session env_gap (Main.analyze_video_url "job" url) fresh_world).2 in
  Analyzer.url_is_supported url = false
  /\ history w
     = [StatusWrite "job" ("Error: " +:+ Analyzer.unsupported_url_message);
        Publish "job" "complete"]
  /\ stage_of_status ("Error: " +:+ Analyzer.unsupported_url_message) = Some Failed
  /\ connections w !! "job" = Some ["complete"]
  /\ Main.event_generator ["complete"] = (["complete"], []).
Proof. repeat split; vm_compute; reflexivity. Qed.

(** ** Job creation *)

(** C8, as stated, fails both ways: creation over an existing directory
    succeeds, and a new directory has no status record. *)
Lemma C8_creation_neither_fails_nor_initialises :
  ~ creation_as_claimed (Main.analyze_video_url "job" "https://www.tiktok.com/video/1")
      "job" (mkWorld {["job" := empty_dir]} ∅ [])
  /\ ~ creation_as_claimed (Main.analyze_video_url "job" "https://www.tiktok.com/video/1")
         "job" fresh_world.
Proof.
  split; unfold creation_as_claimed.
  - vm_compute. intros [e H]. discriminate H.
  - vm_compute. intros (d & H & [v Hv]). injection H as <-. discriminate Hv.
Qed.

(** C8, amended: job creation does not fail when the directory is there;
    it leaves an existing directory as it is, makes an empty one otherwise
    (with the uploaded video in it, for an upload), touches no other
    directory, and writes no status record. *)
Theorem C8_creation_makes_directory (uuid4 url : string) (w : World) :
  let d0 := default empty_dir (fs w !! uuid4) in
  let video_path := PyStr.path_join (PyStr.path_join Main.TEMP_STORAGE_PATH uuid4) "video.mp4" in
  Main.analyze_video_url uuid4 url w
  = (Ok (uuid4, Main.UrlTask uuid4 url),
     mkWorld (<[uuid4 := d0]> (fs w)) (connections w) (history w))
  /\ Main.analyze_video_upload uuid4 w
     = (Ok (uuid4, Main.LocalFileTask uuid4 video_path),
        mkWorld (<[uuid4 := set_video (Some video_path) d0]> (fs w)) (connections w) (history w))
  /\ status_txt d0 = (fs w !! uuid4) ≫= status_txt
  /\ status_txt (set_video (Some video_path) d0) = (fs w !! uuid4) ≫= status_txt.
Proof.
  cbv zeta.
  unfold Main.analyze_video_url, Main.analyze_video_upload, bind, ret, makedirs, write_file.
  destruct (fs w !! uuid4) as [d|] eqn:Hd; cbn [default fs].
  - rewrite Hd. split; [|split; [|split; reflexivity]]; [|reflexivity].
    rewrite insert_id by exact Hd. now destruct w.
  - rewrite lookup_insert_eq, insert_insert_eq.
    split; [reflexivity|split; [|split]; reflexivity].
Qed.

(** ** The validation gate *)

Lemma url_is_supported_iff (url : string) :
  Analyzer.url_is_supported url = true
  <-> occurs_in "/video/" url \/ occurs_in "/note/" url.
Proof.
  unfold Analyzer.url_is_supported.
  now rewrite orb_true_iff, !contains_iff.
Qed.

Example search_url_is_supported :
  Analyzer.url_is_supported "https://www.tiktok.com/search?q=/video/" = true.
Proof. reflexivity. Qed.

(** C10: the gate lets a URL through exactly when "/video/" or "/note/"
    occurs in it; for a job whose directory is there the downloader is
    invoked exactly for those URLs; and on a rejected URL the pipeline
    function returns normally. *)
Theorem C10_gate_is_substring_test
    (env : Env) (job url : string) (w : World) (d : JobDir) :
  fs w !! job = Some d ->
  (Analyzer.url_is_supported url = true
   <-> occurs_in "/video/" url \/ occurs_in "/note/" url)
  /\ (invoked job Downloader (effects_of (Analyzer.run_analysis_pipeline env job url) w)
      <-> Analyzer.url_is_supported url = true)
  /\ (Analyzer.url_is_supported url = false ->
      (Analyzer.run_analysis_pipeline env job url w).1 = Ok tt).
Proof.
  intros Hd. split; [apply url_is_supported_iff|].
  rewrite (world_shape w job d Hd). unfold effects_of, invoked. cbn [history].
  unfold Analyzer.run_analysis_pipeline.
  destruct (Analyzer.url_is_supported url); cbn [negb].
  - split; [|discriminate].
    split; [reflexivity|intros _].
    run_all; tidy_history; rewrite drop_app_length; right; left; reflexivity.
  - run_all. tidy_history. rewrite drop_app_length. split; [|reflexivity].
    split; [|discriminate]. intros [H|[]]. discriminate H.
Qed.

Lemma C10_gate_is_substring_test_witness :
  (Analyzer.url_is_supported "https://www.tiktok.com/search?q=/video/" = true
   <-> occurs_in "/video/" "https://www.tiktok.com/search?q=/video/"
       \/ occurs_in "/note/" "https://www.tiktok.com/search?q=/video/")
  /\ (invoked "job" Downloader
        (effects_of (Analyzer.run_analysis_pipeline env_gap "job"
                       "https://www.tiktok.com/search?q=/video/")
                    (mkWorld {["job" := empty_dir]} ∅ []))
      <-> Analyzer.url_is_supported "https://www.tiktok.com/search?q=/video/" = true)
  /\ (Analyzer.url_is_supported "https://www.tiktok.com/search?q=/video/" = false ->
      (Analyzer.run_analysis_pipeline env_gap "job" "https://www.tiktok.com/search?q=/video/"
         (mkWorld {["job" := empty_dir]} ∅ [])).1 = Ok tt).
Proof.
  apply (C10_gate_is_substring_test env_gap "job" "https://www.tiktok.com/search?q=/video/"
           (mkWorld {["job" := empty_dir]} ∅ []) empty_dir).
  reflexivity.
Defined.

(** ** Failures inside the pipeline *)

Lemma video_path_of_url (env : Env) (job url video_path : string) :
  video_path_of env (Main.UrlTask job url) = Some video_path ->
  Analyzer.url_is_supported url = true
  /\ extract_info env url = Ok video_path
  /\ String.eqb video_path "" = false.
Proof.
  cbn [video_path_of]. destruct (Analyzer.url_is_supported url); [|discriminate].
  destruct (extract_info env url) as [p|e]; [|discriminate].
  destruct (String.eqb p "") eqn:Hp; [discriminate|].
  intros H. injection H as <-. auto.
Qed.

Ltac unfold_task :=
  unfold Main.run_task, Main.run_analysis_and_notify, Main.run_local_file_analysis_and_notify.

Ltac finish_send :=
  unfold Main.send_event; cbn [connections];
  match goal with
  | |- context [match ?c !! ?j with _ => _ end] => destruct (c !! j)
  end; cbn [fst snd fs connections history].

Ltac no_invoke := unfold invoked; cbn [In]; intuition discriminate.

Lemma pipeline_fallback
    (env : Env) (t : Main.Task) (f : gmap string JobDir) (c : gmap string (list string))
    (h : list Effect) (d : JobDir)
    (video_path transcript e : string) (scene_list : list Scene) :
  video_path_of env t = Some video_path ->
  ffmpeg_run env video_path = Ok tt ->
  whisper_transcribe env (PyStr.path_join (Analyzer.job_dir env (job_of t)) "audio.mp3")
  = Ok transcript ->
  detect_scenes env video_path = Ok scene_list ->
  (forall parts, generate_content env parts = Raise e) ->
  exists d' effects,
    pipeline env t (mkWorld (<[job_of t := d]> f) c h)
    = (Ok tt, mkWorld (<[job_of t := d']> f) c (h ++ effects))
    /\ status_txt d' = Some "complete"
    /\ report_md d' = Some (Analyzer.fallback_report e transcript).
Proof.
  intros Hv Hf Hw Hs Hg.
  destruct t as [job url|job path]; cbn [job_of] in *.
  - apply video_path_of_url in Hv as (Hu & Hx & He).
    unfold pipeline, Analyzer.run_analysis_pipeline. rewrite Hu. cbn [negb].
    exec. rewrite Hx. exec. rewrite He. exec. rewrite Hf. exec. rewrite Hw. exec.
    rewrite Hs. exec. rewrite Hg. exec. tidy_history.
    eexists. eexists. split; [reflexivity|split; reflexivity].
  - cbn [video_path_of] in Hv. injection Hv as ->.
    exec. rewrite Hf. exec. rewrite Hw. exec.
    rewrite Hs. exec. rewrite Hg. exec. tidy_history.
    eexists. eexists. split; [reflexivity|split; reflexivity].
Qed.

(** C3: when the call to the generative model fails, the pipeline goes on:
    it returns normally, the status record ends at "complete", and the
    stored report is the fallback text, which carries the failure marker
    and the transcript as it is. *)
Theorem C3_generation_failure_falls_back
    (env : Env) (t : Main.Task) (w : World) (d : JobDir)
    (video_path transcript e : string) (scene_list : list Scene) :
  fs w !! job_of t = Some d ->
  video_path_of env t = Some video_path ->
  ffmpeg_run env video_path = Ok tt ->
  whisper_transcribe env (PyStr.path_join (Analyzer.job_dir env (job_of t)) "audio.mp3")
  = Ok transcript ->
  detect_scenes env video_path = Ok scene_list ->
  (forall parts, generate_content env parts = Raise e) ->
  (pipeline env t w).1 = Ok tt
  /\ (exists d',
        fs (Main.run_task env t w).2 !! job_of t = Some d'
        /\ status_txt d' = Some "complete"
        /\ report_md d' = Some (Analyzer.fallback_report e transcript))
  /\ PyStr.startswith (Analyzer.fallback_report e transcript) "# LLM Analysis Failed" = true
  /\ occurs_in transcript (Analyzer.fallback_report e transcript)
  /\ (forall queue, connections w !! job_of t = Some queue ->
      connections (Main.run_task env t w).2 !! job_of t = Some (queue ++ ["complete"])).
Proof.
  intros Hd Hv Hf Hw Hs Hg. rewrite (world_shape w _ d Hd).
  destruct (pipeline_fallback env t (fs w) (connections w) (history w) d
              video_path transcript e scene_list Hv Hf Hw Hs Hg)
    as (d' & effects & Hrun & Hstatus & Hreport).
  rewrite run_task_pipeline. unfold try_except, bind. rewrite Hrun. cbn [fst].
  split; [reflexivity|]. split; [|split; [reflexivity|split]].
  - exists d'. unfold Main.send_event. cbn [connections].
    destruct (connections w !! job_of t); cbn [snd fs];
      (split; [apply lookup_insert_eq|split; assumption]).
  - unfold Analyzer.fallback_report. do 8 apply occurs_in_append.
    apply occurs_in_suffix.
  - intros queue Hq. cbn [connections] in Hq.
    unfold Main.send_event. cbn [connections]. rewrite Hq.
    cbn [snd connections]. apply lookup_insert_eq.
Qed.

Lemma C3_generation_failure_falls_back_witness :
  let t := Main.LocalFileTask "job" "temp_storage/job/video.mp4" in
  (pipeline env_llm_down t created_world).1 = Ok tt
  /\ (exists d',
        fs (Main.run_task env_llm_down t created_world).2 !! "job" = Some d'
        /\ status_txt d' = Some "complete"
        /\ report_md d' = Some (Analyzer.fallback_report "timeout" "hello"))
  /\ PyStr.startswith (Analyzer.fallback_report "timeout" "hello") "# LLM Analysis Failed" = true
  /\ occurs_in "hello" (Analyzer.fallback_report "timeout" "hello")
  /\ (forall queue, connections created_world !! "job" = Some queue ->
      connections (Main.run_task env_llm_down t created_world).2 !! "job"
      = Some (queue ++ ["complete"])).
Proof.
  apply (C3_generation_failure_falls_back env_llm_down
           (Main.LocalFileTask "job" "temp_storage/job/video.mp4") created_world empty_dir
           "temp_storage/job/video.mp4" "hello" "timeout" [(0, 10); (10, 20)]);
    intros; reflexivity.
Defined.

(** C9: when the transcriber fails, the status record of the job ends at a
    failure, the transcriber is the last collaborator invoked (neither the
    scene detector nor the report generator runs), and the keyframes
    directory and the report are as they were before the run: for a new
    job, absent. *)
Theorem C9_transcription_failure_stops_before_keyframes
    (env : Env) (t : Main.Task) (w : World) (d : JobDir) (video_path e : string) :
  fs w !! job_of t = Some d ->
  video_path_of env t = Some video_path ->
  ffmpeg_run env video_path = Ok tt ->
  whisper_transcribe env (PyStr.path_join (Analyzer.job_dir env (job_of t)) "audio.mp3")
  = Raise e ->
  (exists d' value,
     fs (Main.run_task env t w).2 !! job_of t = Some d'
     /\ status_txt d' = Some value
     /\ stage_of_status value = Some Failed
     /\ keyframes d' = keyframes d
     /\ report_md d' = report_md d)
  /\ invoked (job_of t) Transcriber (effects_of (Main.run_task env t) w)
  /\ ~ invoked (job_of t) SceneDetector (effects_of (Main.run_task env t) w)
  /\ ~ invoked (job_of t) ReportGenerator (effects_of (Main.run_task env t) w).
Proof.
  intros Hd Hv Hf Hw. rewrite (world_shape w _ d Hd). unfold effects_of. cbn [history].
  destruct t as [job url|job path]; cbn [job_of] in *.
  - apply video_path_of_url in Hv as (Hu & Hx & He).
    unfold_task. unfold Analyzer.run_analysis_pipeline. rewrite Hu. cbn [negb].
    exec. rewrite Hx. exec. rewrite He. exec. rewrite Hf. exec. rewrite Hw. exec.
    finish_send; tidy_history; rewrite drop_app_length;
      (split; [eexists; eexists; split; [apply lookup_insert_eq|];
               split; [reflexivity|]; split; [vm_compute; reflexivity|];
               split; reflexivity
              |split; [unfold invoked; cbn [In]; auto 10|split; no_invoke]]).
  - cbn [video_path_of] in Hv. injection Hv as ->.
    unfold_task. exec. rewrite Hf. exec. rewrite Hw. exec.
    finish_send; tidy_history; rewrite drop_app_length;
      (split; [eexists; eexists; split; [apply lookup_insert_eq|];
               split; [reflexivity|]; split; [vm_compute; reflexivity|];
               split; reflexivity
              |split; [unfold invoked; cbn [In]; auto 10|split; no_invoke]]).
Qed.

Lemma C9_transcription_failure_stops_before_keyframes_witness :
  let t := Main.UrlTask "job" "https://www.tiktok.com/@someuser/video/7" in
  (exists d' value,
     fs (Main.run_task env_whisper_down t created_world).2 !! "job" = Some d'
     /\ status_txt d' = Some value
     /\ stage_of_status value = Some Failed
     /\ keyframes d' = None
     /\ report_md d' = None)
  /\ invoked "job" Transcriber (effects_of (Main.run_task env_whisper_down t) created_world)
  /\ ~ invoked "job" SceneDetector (effects_of (Main.run_task env_whisper_down t) created_world)
  /\ ~ invoked "job" ReportGenerator (effects_of (Main.run_task env_whisper_down t) created_world).
Proof.
  apply (C9_transcription_failure_stops_before_keyframes env_whisper_down
           (Main.UrlTask "job" "https://www.tiktok.com/@someuser/video/7") created_world
           empty_dir "/srv/temp_storage/job/video.mp4" "whisper failed");
    reflexivity.
Defined.

(** * Further properties of the code *)

(** ** SSEManager and the event stream *)

Lemma publish_all_run (job : string) (messages : list string) :
  forall (w : World) (queue : list string),
    connections w !! job = Some queue ->
    publish_all job messages w
    = (Ok tt, mkWorld (fs w) (<[job := queue ++ messages]> (connections w))
                      (history w ++ map (Publish job) messages)).
Proof.
  induction messages as [|m rest IH]; intros w queue Hq; cbn [publish_all map].
  - unfold ret. rewrite !app_nil_r, insert_id by exact Hq. now destruct w.
  - unfold bind, Main.send_event. rewrite Hq.
    erewrite IH by apply lookup_insert_eq. cbn [fs connections history].
    now rewrite insert_insert_eq, <- !app_assoc.
Qed.

(** X1: With a subscriber, the messages sent to a job are appended to its
    queue in the order sent, none lost and none twice, each one recorded
    as published; the directories are not touched. *)
Theorem publish_all_fifo (job : string) (messages : list string)
    (w : World) (queue : list string) :
  connections w !! job = Some queue ->
  (publish_all job messages w).1 = Ok tt
  /\ connections (publish_all job messages w).2 !! job = Some (queue ++ messages)
  /\ effects_of (publish_all job messages) w = map (Publish job) messages
  /\ fs (publish_all job messages w).2 = fs w.
Proof.
  intros Hq. unfold effects_of. rewrite (publish_all_run job messages w queue Hq).
  cbn [fst snd fs connections history].
  rewrite lookup_insert_eq, drop_app_length. auto.
Qed.

Lemma publish_all_fifo_witness :
  (publish_all "job" ["downloading"; "complete"] created_world).1 = Ok tt
  /\ connections (publish_all "job" ["downloading"; "complete"] created_world).2 !! "job"
     = Some ([] ++ ["downloading"; "complete"])
  /\ effects_of (publish_all "job" ["downloading"; "complete"]) created_world
     = map (Publish "job") ["downloading"; "complete"]
  /\ fs (publish_all "job" ["downloading"; "complete"] created_world).2 = fs created_world.
Proof.
  apply (publish_all_fifo "job" ["downloading"; "complete"] created_world []).
  reflexivity.
Defined.

(** X2: A new subscription starts from an empty queue whatever the registry
    held for the job: messages queued for an earlier subscriber are no
    longer reachable through the registry, and what the new subscriber
    finds is what is sent from then on. *)
Theorem add_connection_replaces (job : string) (messages : list string) (w : World) :
  (Main.add_connection job w).1 = Ok []
  /\ connections (Main.add_connection job w).2 !! job = Some []
  /\ connections ((Main.add_connection job;; publish_all job messages) w).2 !! job
     = Some messages.
Proof.
  split; [reflexivity|]. split; [apply lookup_insert_eq|].
  unfold bind, Main.add_connection.
  erewrite publish_all_run by apply lookup_insert_eq.
  cbn [snd connections]. apply lookup_insert_eq.
Qed.

(** X3: After the subscription is removed nothing is queued or recorded for the
    job: sending is a no-op that returns normally.  Removing a
    subscription that is not there changes nothing either. *)
Theorem remove_connection_drops (job : string) (messages : list string) (w : World) :
  let w1 := (Main.remove_connection job w).2 in
  connections w1 !! job = None
  /\ publish_all job messages w1 = (Ok tt, w1)
  /\ (connections w !! job = None -> w1 = w).
Proof.
  cbv zeta. unfold Main.remove_connection. cbn [snd].
  split; [apply lookup_delete_eq|]. split.
  - set (w1 := mkWorld _ _ _).
    assert (Hn : connections w1 !! job = None) by apply lookup_delete_eq.
    clearbody w1. induction messages as [|m rest IH]; cbn [publish_all]; [reflexivity|].
    unfold bind, Main.send_event. now rewrite Hn.
  - intros Hn. rewrite delete_id by exact Hn. now destruct w.
Qed.

(** X4: The three operations of the manager on one job leave the queue of
    every other job as it is. *)
Theorem manager_other_jobs (job other message : string) (w : World) :
  job <> other ->
  connections (Main.add_connection job w).2 !! other = connections w !! other
  /\ connections (Main.send_event job message w).2 !! other = connections w !! other
  /\ connections (Main.remove_connection job w).2 !! other = connections w !! other.
Proof.
  intros Hne. unfold Main.add_connection, Main.send_event, Main.remove_connection.
  cbn [snd connections]. split; [now apply lookup_insert_ne|]. split.
  - destruct (connections w !! job); cbn [snd connections]; [now apply lookup_insert_ne|done].
  - now apply lookup_delete_ne.
Qed.

Lemma manager_other_jobs_witness :
  connections (Main.add_connection "job" created_world).2 !! "other"
  = connections created_world !! "other"
  /\ connections (Main.send_event "job" "complete" created_world).2 !! "other"
     = connections created_world !! "other"
  /\ connections (Main.remove_connection "job" created_world).2 !! "other"
     = connections created_world !! "other".
Proof. apply (manager_other_jobs "job" "other" "complete" created_world). discriminate. Defined.

(** X5: What the stream delivers from a queue: the messages in queue order up
    to and including the first terminal one, nothing after it; what it
    delivers and what it leaves unread make up the queue. *)
Theorem event_generator_prefix (queue : list string) :
  let sent := (Main.event_generator queue).1 in
  let unread := (Main.event_generator queue).2 in
  sent ++ unread = queue
  /\ exists before,
       forallb (fun m => negb (Main.is_terminal m)) before = true
       /\ ((sent = before /\ unread = [])
           \/ exists terminal, Main.is_terminal terminal = true /\ sent = before ++ [terminal]).
Proof.
  cbv zeta. induction queue as [|m queue (IHq & before & Hb & IH)];
    cbn [Main.event_generator].
  - split; [reflexivity|]. exists []. split; [reflexivity|]. left. split; reflexivity.
  - destruct (Main.is_terminal m) eqn:Hm; cbn [fst snd].
    + split; [reflexivity|]. exists []. split; [reflexivity|]. right. now exists m.
    + destruct (Main.event_generator queue) as [sent unread]; cbn [fst snd] in *.
      split; [now rewrite <- IHq|]. exists (m :: before). split.
      * cbn [forallb]. now rewrite Hm, Hb.
      * destruct IH as [[-> ->]|(t & Ht & ->)]; [left; split; reflexivity|].
        right. now exists t.
Qed.

(** ** The wrappers and the pipeline functions *)

Lemma no_publish_published (job : string) (effects : list Effect) :
  forallb (fun ef => negb (is_publish ef)) effects = true ->
  published job effects = [].
Proof.
  induction effects as [|ef rest IH]; [reflexivity|].
  cbn [forallb]. intros H. apply andb_true_iff in H as [Hef Hrest].
  destruct ef; try discriminate Hef; cbn; auto.
Qed.

Lemma send_event_returns (job message : string) (w : World) :
  (Main.send_event job message w).1 = Ok tt
  /\ fs (Main.send_event job message w).2 = fs w.
Proof. unfold Main.send_event. now destruct (connections w !! job). Qed.

(** X6: A scheduled task never lets an exception out, whatever the tools do
    and whatever the state of the directories; and its wrapper adds
    nothing to the directories beyond what the pipeline function wrote. *)
Theorem run_task_returns (env : Env) (t : Main.Task) (w : World) :
  (Main.run_task env t w).1 = Ok tt
  /\ fs (Main.run_task env t w).2 = fs (pipeline env t w).2.
Proof.
  rewrite run_task_pipeline. unfold try_except, bind.
  destruct (pipeline env t w) as [[[]|e] w']; cbn [snd];
    destruct (send_event_returns (job_of t) "complete" w') as [H1 H2];
    destruct (send_event_returns (job_of t) "error" w') as [H3 H4];
    destruct (Main.send_event (job_of t) "complete" w') as [[[]|?] ?];
    destruct (Main.send_event (job_of t) "error" w') as [[[]|?] ?];
    cbn [fst snd] in *; try discriminate; auto.
Qed.

(** X7: Without a subscriber the run publishes nothing and leaves the registry
    as it is; the pipeline does its work all the same. *)
Theorem run_task_without_subscriber (env : Env) (t : Main.Task) (w : World) :
  connections w !! job_of t = None ->
  connections (Main.run_task env t w).2 = connections w
  /\ published (job_of t) (effects_of (Main.run_task env t) w) = []
  /\ effects_of (Main.run_task env t) w = effects_of (pipeline env t) w.
Proof.
  intros Hn. destruct (pipeline_shape env t w) as (pre & Hh & Hc & Hp & _).
  rewrite run_task_pipeline. unfold effects_of, try_except, bind.
  destruct (pipeline env t w) as [[[]|e] w']; cbn [fst snd] in *;
    unfold Main.send_event; rewrite Hc, Hn; cbn [snd];
    rewrite Hh, drop_app_length;
    (split; [exact Hc|split; [now apply no_publish_published|reflexivity]]).
Qed.

Lemma run_task_without_subscriber_witness :
  let t := Main.LocalFileTask "job" "video.mp4" in
  connections (Main.run_task env_gap t fresh_world).2 = connections fresh_world
  /\ published "job" (effects_of (Main.run_task env_gap t) fresh_world) = []
  /\ effects_of (Main.run_task env_gap t) fresh_world
     = effects_of (pipeline env_gap t) fresh_world.
Proof.
  apply (run_task_without_subscriber env_gap (Main.LocalFileTask "job" "video.mp4") fresh_world).
  reflexivity.
Defined.

(** X8: When the directory of the job is missing, a pipeline function does
    nothing at all: its first status write fails, the write of its error
    handler fails as well, and it raises, leaving the world as it was; a
    subscriber then receives "error". *)
Theorem pipeline_without_directory (env : Env) (t : Main.Task) (w : World) :
  fs w !! job_of t = None ->
  (exists e, pipeline env t w = (Raise e, w))
  /\ forall queue, connections w !! job_of t = Some queue ->
     connections (Main.run_task env t w).2 !! job_of t = Some (queue ++ ["error"])
     /\ effects_of (Main.run_task env t) w = [Publish (job_of t) "error"].
Proof.
  intros Hd. split; [eexists; now apply pipeline_without_directory_eq|].
  intros queue Hq. rewrite run_task_pipeline. unfold effects_of, try_except, bind.
  rewrite pipeline_without_directory_eq by exact Hd.
  unfold Main.send_event. rewrite Hq. cbn [snd connections history].
  split; [apply lookup_insert_eq | apply drop_app_length].
Qed.

(** A subscriber to a job that has no directory. *)
Lemma pipeline_without_directory_witness :
  let t := Main.UrlTask "job" "https://www.tiktok.com/video/1" in
  let w := mkWorld ∅ {["job" := []]} [] in
  (exists e, pipeline env_gap t w = (Raise e, w))
  /\ connections (Main.run_task env_gap t w).2 !! "job" = Some ([] ++ ["error"])
  /\ effects_of (Main.run_task env_gap t) w = [Publish "job" "error"].
Proof.
  cbv zeta.
  destruct (pipeline_without_directory env_gap
              (Main.UrlTask "job" "https://www.tiktok.com/video/1")
              (mkWorld ∅ {["job" := []]} [])) as [H1 H2]; [reflexivity|].
  split; [exact H1 | apply H2; reflexivity].
Defined.

(** X9: For a job whose directory is there, the URL pipeline function never
    raises, whatever fails inside it: it returns normally with the status
    record at "complete", at the rejection text of the gate, or at
    "error: An error occurred: ..." with the error it caught.  So the
    event its wrapper sends to a subscriber is always "complete". *)
Theorem url_pipeline_returns (env : Env) (job url : string) (w : World) (d : JobDir) :
  fs w !! job = Some d ->
  (Analyzer.run_analysis_pipeline env job url w).1 = Ok tt
  /\ (exists d' value,
        fs (Analyzer.run_analysis_pipeline env job url w).2 !! job = Some d'
        /\ status_txt d' = Some value
        /\ (value = "complete"
            \/ value = "Error: " +:+ Analyzer.unsupported_url_message
            \/ exists e, value = "error: " +:+ "An error occurred: " +:+ e))
  /\ (forall queue, connections w !! job = Some queue ->
      connections (Main.run_analysis_and_notify env job url w).2 !! job
      = Some (queue ++ ["complete"])).
Proof.
  intros Hd.
  assert (Hok : (Analyzer.run_analysis_pipeline env job url w).1 = Ok tt).
  { rewrite (world_shape w job d Hd). unfold Analyzer.run_analysis_pipeline.
    destruct (Analyzer.url_is_supported url); cbn [negb]; run_all; reflexivity. }
  split; [exact Hok|]. split.
  - rewrite (world_shape w job d Hd). unfold Analyzer.run_analysis_pipeline.
    destruct (Analyzer.url_is_supported url); cbn [negb]; run_all;
      (eexists; eexists; split; [apply lookup_insert_eq|]; split; [reflexivity|]; eauto).
  - intros queue Hq.
    destruct (pipeline_shape env (Main.UrlTask job url) w) as (pre & _ & Hc & _).
    cbn [pipeline job_of] in Hc. unfold Main.run_analysis_and_notify, try_except, bind.
    destruct (Analyzer.run_analysis_pipeline env job url w) as [[[]|e] w'];
      cbn [fst snd] in *; [|discriminate Hok].
    unfold Main.send_event. rewrite Hc, Hq. cbn [snd connections].
    apply lookup_insert_eq.
Qed.

Lemma url_pipeline_returns_witness :
  let url := "https://www.tiktok.com/@someuser/video/7" in
  (Analyzer.run_analysis_pipeline env_whisper_down "job" url created_world).1 = Ok tt
  /\ (exists d' value,
        fs (Analyzer.run_analysis_pipeline env_whisper_down "job" url created_world).2 !! "job"
        = Some d'
        /\ status_txt d' = Some value
        /\ (value = "complete"
            \/ value = "Error: " +:+ Analyzer.unsupported_url_message
            \/ exists e, value = "error: " +:+ "An error occurred: " +:+ e))
  /\ (forall queue, connections created_world !! "job" = Some queue ->
      connections (Main.run_analysis_and_notify env_whisper_down "job" url created_world).2
        !! "job"
      = Some (queue ++ ["complete"])).
Proof.
  apply (url_pipeline_returns env_whisper_down "job"
           "https://www.tiktok.com/@someuser/video/7" created_world empty_dir).
  reflexivity.
Defined.

(** X10: The analysis of a local file either returns, with the status record at
    "complete" and a report stored, or raises the error that stopped it,
    with the status record at "error: Error during analysis: " followed by
    that error and the report left as it was.  The event its wrapper sends
    to a subscriber says which: "complete" for a return, "error" for a
    raise. *)
Theorem local_file_outcome (env : Env) (job video_path : string) (w : World) (d : JobDir) :
  fs w !! job = Some d ->
  exists d',
    fs (Analyzer._run_analysis_on_local_file env job video_path w).2 !! job = Some d'
    /\ match (Analyzer._run_analysis_on_local_file env job video_path w).1 with
       | Ok _ => status_txt d' = Some "complete" /\ is_Some (report_md d')
       | Raise e =>
           status_txt d' = Some ("error: " +:+ "Error during analysis: " +:+ e)
           /\ report_md d' = report_md d
       end
    /\ (forall queue, connections w !! job = Some queue ->
        connections (Main.run_local_file_analysis_and_notify env job video_path w).2 !! job
        = Some (queue ++ [match (Analyzer._run_analysis_on_local_file env job video_path w).1
                          with Ok _ => "complete" | Raise _ => "error" end])).
Proof.
  intros Hd. rewrite (world_shape w job d Hd).
  unfold Main.run_local_file_analysis_and_notify. run_all;
    (eexists; split; [apply lookup_insert_eq|]; split;
     [split; [reflexivity|eauto]
     |intros queue Hq; cbn [connections] in Hq; unfold Main.send_event;
      cbn [connections]; rewrite Hq; cbn [snd connections]; apply lookup_insert_eq]).
Qed.

Lemma local_file_outcome_witness :
  exists d',
    fs (Analyzer._run_analysis_on_local_file env_whisper_down "job" "video.mp4"
          created_world).2 !! "job" = Some d'
    /\ match (Analyzer._run_analysis_on_local_file env_whisper_down "job" "video.mp4"
                created_world).1 with
       | Ok _ => status_txt d' = Some "complete" /\ is_Some (report_md d')
       | Raise e =>
           status_txt d' = Some ("error: " +:+ "Error during analysis: " +:+ e)
           /\ report_md d' = report_md empty_dir
       end
    /\ (forall queue, connections created_world !! "job" = Some queue ->
        connections (Main.run_local_file_analysis_and_notify env_whisper_down "job"
                       "video.mp4" created_world).2 !! "job"
        = Some (queue ++ [match (Analyzer._run_analysis_on_local_file env_whisper_down "job"
                                   "video.mp4" created_world).1
                          with Ok _ => "complete" | Raise _ => "error" end])).
Proof.
  apply (local_file_outcome env_whisper_down "job" "video.mp4" created_world empty_dir).
  reflexivity.
Defined.

Lemma pipeline_fs (env : Env) (t : Main.Task) (w : World) :
  exists o : option JobDir,
    fs (pipeline env t w).2
    = match o with Some d' => <[job_of t := d']> (fs w) | None => fs w end.
Proof.
  destruct (fs w !! job_of t) as [d|] eqn:Hd.
  - rewrite (world_shape w _ d Hd). cbn [fs].
    destruct t as [job url|job video_path]; cbn [job_of];
      [unfold pipeline, Analyzer.run_analysis_pipeline;
       destruct (Analyzer.url_is_supported url); cbn [negb]|];
      run_all; (eexists (Some _); rewrite insert_insert_eq; reflexivity).
  - exists None. now rewrite pipeline_without_directory_eq by exact Hd.
Qed.

(** Job ids of the shape uuid4 gives them name their directories one to
    one: the id is a single path component, so two ids give one directory
    only when they are equal.  The file store is keyed by the job id on
    this ground. *)
Lemma uuid4_text_component (s : string) :
  is_uuid4_text s = true -> PyStr.startswith s "/" = false.
Proof.
  destruct s as [|c s]; [discriminate|]. unfold is_uuid4_text.
  cbn [repeat app has_shape]. intros H. apply andb_prop in H as [Hc _].
  cbn [PyStr.startswith]. destruct (Ascii.eqb_spec c "/") as [->|Hne]; [discriminate Hc|].
  destruct (Ascii.eqb_spec "/" c) as [<-|_]; [contradiction|reflexivity].
Qed.

Lemma append_inj_prefix (p a b : string) : p +:+ a = p +:+ b -> a = b.
Proof.
  induction p as [|c p IH]; [auto|]. intros H. injection H as H. auto.
Qed.

Lemma job_dir_inj (env : Env) (a b : string) :
  is_uuid4_text a = true -> is_uuid4_text b = true ->
  Analyzer.job_dir env a = Analyzer.job_dir env b -> a = b.
Proof.
  intros Ha Hb. unfold Analyzer.job_dir, PyStr.path_join.
  rewrite (uuid4_text_component a Ha), (uuid4_text_component b Hb).
  destruct (_ || _); intros H.
  - now apply append_inj_prefix in H.
  - apply append_inj_prefix in H. now apply (append_inj_prefix "/") in H.
Qed.

(** X11: For job ids of the shape uuid4 gives them, a run of the task of
    one job changes neither the directory nor the subscription of any
    other job. *)
Theorem run_task_other_jobs (env : Env) (t : Main.Task) (w : World) (other : string) :
  is_uuid4_text (job_of t) = true ->
  is_uuid4_text other = true ->
  other <> job_of t ->
  fs (Main.run_task env t w).2 !! other = fs w !! other
  /\ connections (Main.run_task env t w).2 !! other = connections w !! other.
Proof.
  intros _ _ Hne. split.
  - destruct (pipeline_fs env t w) as [o Ho].
    rewrite run_task_pipeline. unfold try_except, bind.
    destruct (pipeline env t w) as [[[]|e] w']; cbn [snd] in *;
      unfold Main.send_event; destruct (connections w' !! job_of t); cbn [snd fs];
      rewrite Ho; (destruct o; [now apply lookup_insert_ne|reflexivity]).
  - destruct (pipeline_shape env t w) as (pre & _ & Hc & _).
    rewrite run_task_pipeline. unfold try_except, bind.
    destruct (pipeline env t w) as [[[]|e] w']; cbn [snd] in *;
      unfold Main.send_event; rewrite Hc;
      destruct (connections w !! job_of t); cbn [snd connections];
      rewrite ?Hc; try reflexivity; now apply lookup_insert_ne.
Qed.

(** Two jobs, each with its directory and its subscriber; the task of the
    first one runs. *)
Lemma run_task_other_jobs_witness :
  let job := "123e4567-e89b-42d3-a456-426614174000" in
  let other := "9b2f1c3e-0d4a-4f6b-8c7d-5e6f7a8b9c0d" in
  let w := mkWorld {[job := empty_dir; other := set_status "transcribing" empty_dir]}
                   {[job := []; other := ["queued"]]} [] in
  fs (Main.run_task env_gap (Main.LocalFileTask job "video.mp4") w).2 !! other = fs w !! other
  /\ connections (Main.run_task env_gap (Main.LocalFileTask job "video.mp4") w).2 !! other
     = connections w !! other.
Proof.
  cbv zeta.
  apply (run_task_other_jobs env_gap
           (Main.LocalFileTask "123e4567-e89b-42d3-a456-426614174000" "video.mp4"));
    [reflexivity | reflexivity | discriminate].
Defined.

Lemma pipeline_success
    (env : Env) (t : Main.Task) (f : gmap string JobDir) (c : gmap string (list string))
    (h : list Effect) (d : JobDir)
    (video_path transcript report : string) (scene_list : list Scene) :
  video_path_of env t = Some video_path ->
  ffmpeg_run env video_path = Ok tt ->
  whisper_transcribe env (PyStr.path_join (Analyzer.job_dir env (job_of t)) "audio.mp3")
  = Ok transcript ->
  detect_scenes env video_path = Ok scene_list ->
  (forall parts, generate_content env parts = Ok report) ->
  exists d' effects,
    pipeline env t (mkWorld (<[job_of t := d]> f) c h)
    = (Ok tt, mkWorld (<[job_of t := d']> f) c (h ++ effects))
    /\ status_values (job_of t) effects
       = match t with
         | Main.UrlTask _ _ => ["downloading"]
         | Main.LocalFileTask _ _ => []
         end ++ ["extracting_audio"; "transcribing"; "extracting_frames";
                 "generating_report"; "complete"]
    /\ status_txt d' = Some "complete"
    /\ report_md d' = Some report
    /\ audio_mp3 d' = false
    /\ audio_txt d' = Some transcript
    /\ keyframes d' = Some (store_keyframes (emitted env video_path 0%N scene_list) (kf d)).
Proof.
  intros Hv Hf Hw Hs Hg.
  destruct t as [job url|job path]; cbn [job_of] in *.
  - apply video_path_of_url in Hv as (Hu & Hx & He).
    unfold pipeline, Analyzer.run_analysis_pipeline. rewrite Hu. cbn [negb].
    exec. rewrite Hx. exec. rewrite He. exec. rewrite Hf. exec. rewrite Hw. exec.
    rewrite Hs. exec. rewrite Hg. exec. tidy_history.
    eexists. eexists. split; [reflexivity|]. split; [leaf_status|].
    cbn [kf keyframes default]. repeat split.
  - cbn [video_path_of] in Hv. injection Hv as ->.
    exec. rewrite Hf. exec. rewrite Hw. exec.
    rewrite Hs. exec. rewrite Hg. exec. tidy_history.
    eexists. eexists. split; [reflexivity|]. split; [leaf_status|].
    cbn [kf keyframes default]. repeat split.
Qed.

(** X12: When every tool succeeds, a task goes through the stages in order and
    ends at "complete": the status values written are "downloading" (for a
    URL) and then the five stages of the analysis, the report stored and
    served is the text of the model, the transcript is kept in audio.txt,
    the extracted audio is gone, the keyframes directory holds the emitted
    frames, and a subscriber receives "complete". *)
Theorem all_stages_succeed
    (env : Env) (t : Main.Task) (w : World) (d : JobDir)
    (video_path transcript report : string) (scene_list : list Scene) :
  fs w !! job_of t = Some d ->
  video_path_of env t = Some video_path ->
  ffmpeg_run env video_path = Ok tt ->
  whisper_transcribe env (PyStr.path_join (Analyzer.job_dir env (job_of t)) "audio.mp3")
  = Ok transcript ->
  detect_scenes env video_path = Ok scene_list ->
  (forall parts, generate_content env parts = Ok report) ->
  status_values (job_of t) (effects_of (Main.run_task env t) w)
  = match t with
    | Main.UrlTask _ _ => ["downloading"]
    | Main.LocalFileTask _ _ => []
    end ++ ["extracting_audio"; "transcribing"; "extracting_frames";
            "generating_report"; "complete"]
  /\ (exists d',
        fs (Main.run_task env t w).2 !! job_of t = Some d'
        /\ status_txt d' = Some "complete"
        /\ report_md d' = Some report
        /\ audio_mp3 d' = false
        /\ audio_txt d' = Some transcript
        /\ keyframes d' = Some (store_keyframes (emitted env video_path 0%N scene_list) (kf d)))
  /\ (Main.get_report (job_of t) (Main.run_task env t w).2).1 = Ok report
  /\ (forall queue, connections w !! job_of t = Some queue ->
      connections (Main.run_task env t w).2 !! job_of t = Some (queue ++ ["complete"])).
Proof.
  intros Hd Hv Hf Hw Hs Hg. rewrite (world_shape w _ d Hd).
  destruct (pipeline_success env t (fs w) (connections w) (history w) d
              video_path transcript report scene_list Hv Hf Hw Hs Hg)
    as (d' & effects & Hrun & Hvalues & Hstatus & Hreport & Hrest).
  rewrite run_task_pipeline. unfold effects_of, try_except, bind. rewrite Hrun.
  cbn [history]. unfold Main.send_event, Main.get_report. cbn [connections].
  split; [|split; [|split]].
  - destruct (connections w !! job_of t); cbn [snd history];
      rewrite <- ?app_assoc, drop_app_length, ?status_values_app, ?Hvalues;
      [cbn [status_values omap list_omap]; now rewrite app_nil_r | reflexivity].
  - exists d'. destruct (connections w !! job_of t); cbn [snd fs];
      (split; [apply lookup_insert_eq|split; [exact Hstatus|split; [exact Hreport|exact Hrest]]]).
  - destruct (connections w !! job_of t); cbn [snd fs];
      now rewrite lookup_insert_eq, Hreport.
  - intros queue Hq. cbn [connections] in Hq. rewrite Hq. cbn [snd connections].
    apply lookup_insert_eq.
Qed.

(** Every tool works. *)
Lemma all_stages_succeed_witness :
  let t := Main.UrlTask "job" "https://www.tiktok.com/@someuser/video/7" in
  status_values "job" (effects_of (Main.run_task env_gap t) created_world)
  = ["downloading"] ++ ["extracting_audio"; "transcribing"; "extracting_frames";
                        "generating_report"; "complete"]
  /\ (exists d',
        fs (Main.run_task env_gap t created_world).2 !! "job" = Some d'
        /\ status_txt d' = Some "complete"
        /\ report_md d' = Some "report"
        /\ audio_mp3 d' = false
        /\ audio_txt d' = Some "hello"
        /\ keyframes d'
           = Some (store_keyframes
                     (emitted env_gap "/srv/temp_storage/job/video.mp4" 0%N [(0, 10); (10, 20)])
                     (kf empty_dir)))
  /\ (Main.get_report "job" (Main.run_task env_gap t created_world).2).1 = Ok "report"
  /\ (forall queue, connections created_world !! "job" = Some queue ->
      connections (Main.run_task env_gap t created_world).2 !! "job"
      = Some (queue ++ ["complete"])).
Proof.
  apply (all_stages_succeed env_gap
           (Main.UrlTask "job" "https://www.tiktok.com/@someuser/video/7") created_world
           empty_dir "/srv/temp_storage/job/video.mp4" "hello" "report" [(0, 10); (10, 20)]);
    intros; reflexivity.
Defined.

(** X13: For a job that starts without a report, the report can be fetched
    after the run exactly when the status record ended at "complete". *)
Theorem report_served_iff_complete (env : Env) (t : Main.Task) (w : World) (d : JobDir) :
  fs w !! job_of t = Some d ->
  report_md d = None ->
  (exists r, (Main.get_report (job_of t) (Main.run_task env t w).2).1 = Ok r)
  <-> (exists d', fs (Main.run_task env t w).2 !! job_of t = Some d'
                  /\ status_txt d' = Some "complete").
Proof.
  intros Hd Hr. rewrite (world_shape w _ d Hd).
  destruct t as [job url|job video_path]; cbn [job_of];
    unfold_task;
    [unfold Analyzer.run_analysis_pipeline;
     destruct (Analyzer.url_is_supported url); cbn [negb]|];
    run_all; finish_send; unfold Main.get_report; cbn [fs];
    rewrite !lookup_insert_eq;
    cbn [report_md set_status set_report set_video set_audio_mp3 set_audio_txt set_keyframes];
    rewrite ?Hr; cbn [fst];
    first
      [ split; intros _; [eexists; split; reflexivity | eexists; reflexivity]
      | split;
        [intros [r H]; discriminate H
        |intros (d' & H & Hs); injection H as <-;
         cbn [status_txt set_status] in Hs; vm_compute in Hs; discriminate Hs] ].
Qed.

Lemma report_served_iff_complete_witness :
  let t := Main.LocalFileTask "job" "video.mp4" in
  (exists r, (Main.get_report "job" (Main.run_task env_whisper_down t created_world).2).1 = Ok r)
  <-> (exists d', fs (Main.run_task env_whisper_down t created_world).2 !! "job" = Some d'
                  /\ status_txt d' = Some "complete").
Proof.
  apply (report_served_iff_complete env_whisper_down (Main.LocalFileTask "job" "video.mp4")
           created_world empty_dir); reflexivity.
Defined.

(** X14: When the download gives no file (the downloader raises, or hands back
    an empty file name), the URL pipeline stops there: the downloader is
    the only tool invoked and the status record ends at "error: An error
    occurred: " followed by the failure.  When the downloader raised, the
    directory holds no video any more: the one of an earlier download was
    removed before the attempt. *)
Theorem download_failure_stops (env : Env) (job url : string) (w : World) (d : JobDir) :
  fs w !! job = Some d ->
  Analyzer.url_is_supported url = true ->
  video_path_of env (Main.UrlTask job url) = None ->
  effects_of (Analyzer.run_analysis_pipeline env job url) w
  = [StatusWrite job "downloading"; Invoke job Downloader;
     StatusWrite job ("error: " +:+ "An error occurred: " +:+ download_error env url)]
  /\ exists d',
       fs (Analyzer.run_analysis_pipeline env job url w).2 !! job = Some d'
       /\ status_txt d' = Some ("error: " +:+ "An error occurred: " +:+ download_error env url)
       /\ (forall e, extract_info env url = Raise e -> video d' = None).
Proof.
  intros Hd Hu Hv. rewrite (world_shape w job d Hd). unfold effects_of. cbn [history].
  unfold Analyzer.run_analysis_pipeline, download_error. rewrite Hu. cbn [negb].
  cbn [video_path_of] in Hv. rewrite Hu in Hv.
  exec. destruct (extract_info env url) as [p|e]; exec.
  - destruct (String.eqb p "") eqn:Hp; [|discriminate Hv].
    apply String.eqb_eq in Hp. subst p.
    exec. tidy_history. rewrite drop_app_length. split; [reflexivity|].
    eexists. split; [apply lookup_insert_eq|]. split; [reflexivity|]. discriminate.
  - tidy_history. rewrite drop_app_length. split; [reflexivity|].
    eexists. split; [apply lookup_insert_eq|]. split; reflexivity.
Qed.

(** The downloader is down. *)
Lemma download_failure_stops_witness :
  let env := mkEnv "/srv" (fun _ => Raise "HTTP Error 403") (fun _ => Ok tt)
                   (fun _ => Ok "hello") (fun _ => Ok []) (fun _ _ => None)
                   (fun _ image => Some image) (fun _ => Ok "report") in
  let url := "https://www.tiktok.com/@someuser/video/7" in
  effects_of (Analyzer.run_analysis_pipeline env "job" url) created_world
  = [StatusWrite "job" "downloading"; Invoke "job" Downloader;
     StatusWrite "job" ("error: " +:+ "An error occurred: " +:+ download_error env url)]
  /\ exists d',
       fs (Analyzer.run_analysis_pipeline env "job" url created_world).2 !! "job" = Some d'
       /\ status_txt d' = Some ("error: " +:+ "An error occurred: " +:+ download_error env url)
       /\ (forall e, extract_info env url = Raise e -> video d' = None).
Proof.
  cbv zeta.
  apply (download_failure_stops
           (mkEnv "/srv" (fun _ => Raise "HTTP Error 403") (fun _ => Ok tt)
                  (fun _ => Ok "hello") (fun _ => Ok []) (fun _ _ => None)
                  (fun _ image => Some image) (fun _ => Ok "report"))
           "job" "https://www.tiktok.com/@someuser/video/7" created_world empty_dir);
    reflexivity.
Defined.

(** ** Keyframe files *)

Lemma length_append (a b : string) :
  String.length (a +:+ b) = (String.length a + String.length b)%nat.
Proof.
  induction a as [|c a IH]; [reflexivity|].
  change (S (String.length (a +:+ b)) = S (String.length a + String.length b)).
  now rewrite IH.
Qed.

Lemma append_inj_suffix (a b s : string) : a +:+ s = b +:+ s -> a = b.
Proof.
  revert b. induction a as [|c a IH]; intros [|c' b] H.
  - reflexivity.
  - apply (f_equal String.length) in H. rewrite !length_append in H.
    cbn [String.length] in H. lia.
  - apply (f_equal String.length) in H. rewrite !length_append in H.
    cbn [String.length] in H. lia.
  - change (String c (a +:+ s) = String c' (b +:+ s)) in H.
    injection H as -> H. f_equal. now apply IH.
Qed.

Lemma parse_leading_zero (s : string) :
  parse_number (String "0" s) = parse_number s.
Proof.
  unfold parse_number. cbn [NilEmpty.uint_of_string].
  now destruct (NilEmpty.uint_of_string s).
Qed.

Lemma parse_format_03d (k : N) : parse_number (PyStr.format_03d k) = Some k.
Proof.
  unfold PyStr.format_03d, PyStr.zfill3.
  destruct (String.length (PyStr.decimal k)) as [|[|[|len]]];
    try change ("000" +:+ ?s) with (String "0" (String "0" (String "0" s)));
    try change ("00" +:+ ?s) with (String "0" (String "0" s));
    try change ("0" +:+ ?s) with (String "0" s);
    rewrite ?parse_leading_zero; apply parse_decimal.
Qed.

Lemma keyframe_number_names_differ (n m : N) :
  Analyzer.keyframe_name n = Analyzer.keyframe_name m -> n = m.
Proof.
  unfold Analyzer.keyframe_name. intros H.
  apply (inj (String.app "keyframe_")) in H. apply append_inj_suffix in H.
  apply (f_equal parse_number) in H. rewrite !parse_format_03d in H. now injection H.
Qed.

(** X15: The number in a keyframe file name reads back as the number it was
    made from, whatever the padding; so different numbers give different
    file names. *)
Theorem keyframe_number_round_trip (n m : N) :
  parse_number (PyStr.format_03d n) = Some n
  /\ (Analyzer.keyframe_name n = Analyzer.keyframe_name m -> n = m).
Proof.
  split; [apply parse_format_03d|].
  unfold Analyzer.keyframe_name. intros H.
  apply (inj (String.app "keyframe_")) in H. apply append_inj_suffix in H.
  apply (f_equal parse_number) in H. rewrite !parse_format_03d in H.
  now injection H.
Qed.

(** X16: A number takes at least three characters in a file name, and exactly
    three up to 999. *)
Theorem format_03d_width (n : N) :
  (3 <= String.length (PyStr.format_03d n))%nat
  /\ ((n < 1000)%N -> String.length (PyStr.format_03d n) = 3%nat).
Proof.
  split.
  - unfold PyStr.format_03d, PyStr.zfill3.
    destruct (PyStr.decimal n) as [|a [|b [|c s]]]; cbn [String.length];
      vm_compute; lia.
  - intros Hn.
    assert (Hall : forallb (fun m => Nat.eqb (String.length (PyStr.format_03d (N.of_nat m))) 3)
                     (List.seq 0 1000) = true) by (vm_compute; reflexivity).
    rewrite forallb_forall in Hall.
    specialize (Hall (N.to_nat n)). rewrite N2Nat.id in Hall.
    apply Nat.eqb_eq, Hall, in_seq. lia.
Qed.

Lemma format_03d_width_witness :
  (3 <= String.length (PyStr.format_03d 7))%nat
  /\ String.length (PyStr.format_03d 7) = 3%nat.
Proof.
  split; [apply (proj1 (format_03d_width 7)) | apply (proj2 (format_03d_width 7)); lia].
Defined.

Lemma store_keyframes_other (files : list (N * Image)) (x : string) :
  forall k : gmap string Image,
    (forall e, In e files -> Analyzer.keyframe_name e.1 <> x) ->
    store_keyframes files k !! x = k !! x.
Proof.
  unfold store_keyframes.
  induction files as [|e files IH]; intros k H; cbn [foldl]; [reflexivity|].
  rewrite IH by (intros e' He'; apply H; now right).
  apply lookup_insert_ne. apply H. now left.
Qed.

Lemma store_keyframes_emitted (files : list (N * Image)) :
  forall (k : gmap string Image) (n : N) (image : Image),
    StronglySorted N.lt (map fst files) ->
    In (n, image) files ->
    store_keyframes files k !! Analyzer.keyframe_name n = Some image.
Proof.
  induction files as [|e files IH]; intros k n image Hs Hin; [destruct Hin|].
  cbn [map] in Hs. apply StronglySorted_inv in Hs as [Hs Hlt].
  change (store_keyframes (e :: files) k)
    with (store_keyframes files (<[Analyzer.keyframe_name e.1 := e.2]> k)).
  destruct Hin as [->|Hin]; [|now apply IH].
  rewrite store_keyframes_other; [apply lookup_insert_eq|].
  intros e' He' Heq. apply (keyframe_number_names_differ e'.1 n) in Heq.
  rewrite List.Forall_forall in Hlt. specialize (Hlt e'.1 (in_map fst _ _ He')).
  cbn [fst] in Hlt. lia.
Qed.

Lemma emitted_length (env : Env) (video_path : string) (scene_list : list Scene) :
  forall i, (length (emitted env video_path i scene_list) <= length scene_list)%nat.
Proof.
  induction scene_list as [|scene rest IH]; intros i; cbn [emitted length]; [lia|].
  destruct (frame_at env video_path (Analyzer.middle_frame_num scene));
    cbn [length]; specialize (IH (i + 1)%N); lia.
Qed.

Lemma emitted_all (env : Env) (video_path : string) (scene_list : list Scene) :
  (forall scene, In scene scene_list ->
                 is_Some (frame_at env video_path (Analyzer.middle_frame_num scene))) ->
  forall i,
    map fst (emitted env video_path i scene_list)
    = map (fun p => N.of_nat p) (List.seq (S (N.to_nat i)) (length scene_list)).
Proof.
  induction scene_list as [|scene rest IH]; intros Hall i; cbn [emitted length List.seq map];
    [reflexivity|].
  destruct (Hall scene (or_introl eq_refl)) as [image ->]. cbn [map fst].
  rewrite IH by (intros s Hs; apply Hall; now right).
  f_equal; [lia|]. f_equal. f_equal. lia.
Qed.

(** X17: The selector emits at most one file per scene; and when the middle
    frame of every scene decodes it emits one file per scene, numbered 1,
    2, 3, ... without a gap. *)
Theorem keyframe_count (env : Env) (video_path job : string) (w : World)
    (scene_list : list Scene) :
  detect_scenes env video_path = Ok scene_list ->
  exists paths,
    (Analyzer._extract_keyframes env video_path job w).1 = Ok paths
    /\ (length paths <= length scene_list)%nat
    /\ ((forall scene, In scene scene_list ->
           is_Some (frame_at env video_path (Analyzer.middle_frame_num scene))) ->
        length paths = length scene_list /\ numbered_by_emission env job paths).
Proof.
  intros Hd. eexists. rewrite extract_keyframes_result, Hd.
  split; [reflexivity|]. rewrite length_map. split; [apply emitted_length|].
  intros Hall. pose proof (emitted_all env video_path scene_list Hall 0%N) as He.
  assert (Hlen : length (emitted env video_path 0%N scene_list) = length scene_list).
  { rewrite <- (length_map fst), He, length_map. apply length_seq. }
  split; [exact Hlen|]. unfold numbered_by_emission.
  rewrite length_map, Hlen.
  rewrite <- (map_map fst (fun n => keyframe_path env job n)), He, map_map.
  reflexivity.
Qed.

(** Two scenes of a stream of five frames, both middle frames inside. *)
Lemma keyframe_count_witness :
  exists paths,
    (Analyzer._extract_keyframes (stream_env five_frames None [(0, 2); (2, 5)])
       "video.mp4" "job" fresh_world).1 = Ok paths
    /\ length paths = 2%nat
    /\ numbered_by_emission (stream_env five_frames None [(0, 2); (2, 5)]) "job" paths
    /\ paths = ["/srv/temp_storage/job/keyframes/keyframe_001.jpg";
                "/srv/temp_storage/job/keyframes/keyframe_002.jpg"].
Proof.
  destruct (keyframe_count (stream_env five_frames None [(0, 2); (2, 5)])
              "video.mp4" "job" fresh_world [(0, 2); (2, 5)])
    as (paths & Hrun & _ & Hall); [reflexivity|].
  exists paths. split; [exact Hrun|].
  destruct Hall as [Hlen Hnum].
  { intros scene [<-|[<-|[]]]; eexists; reflexivity. }
  split; [exact Hlen|]. split; [exact Hnum|].
  rewrite extract_keyframes_result in Hrun. injection Hrun as <-. reflexivity.
Defined.

(** X18: What a run of the selector leaves in the directory of the job: the
    keyframes directory is there afterwards (made, with the job directory,
    when missing, also when scene detection fails); a file in it whose name
    is not the name of a keyframe is as it was; and nothing else of the job
    directory changes. *)
Theorem extract_keyframes_keeps_files (env : Env) (video_path job : string) (w : World) :
  let d0 := default empty_dir (fs w !! job) in
  exists d' k',
    fs (Analyzer._extract_keyframes env video_path job w).2 !! job = Some d'
    /\ keyframes d' = Some k'
    /\ (forall x, (forall n, x <> Analyzer.keyframe_name n) -> k' !! x = kf d0 !! x)
    /\ status_txt d' = status_txt d0 /\ report_md d' = report_md d0
    /\ video d' = video d0 /\ audio_mp3 d' = audio_mp3 d0 /\ audio_txt d' = audio_txt d0.
Proof.
  cbv zeta. rewrite extract_keyframes_any. cbv zeta.
  destruct (detect_scenes env video_path) as [scene_list|e]; cbn [snd fs];
    (eexists; eexists; split; [apply lookup_insert_eq|]; split; [reflexivity|];
     split; [|repeat split]).
  - intros x Hx. apply store_keyframes_other. intros e' _ Heq. now apply (Hx e'.1).
  - reflexivity.
Qed.

(** X19: After a run of the selector the keyframes directory holds, for every
    scene whose middle frame decodes, that frame under the name made from
    the 1-based position of the scene. *)
Theorem extract_keyframes_stores_frames (env : Env) (video_path job : string) (w : World)
    (scene_list : list Scene) :
  detect_scenes env video_path = Ok scene_list ->
  exists d' k',
    fs (Analyzer._extract_keyframes env video_path job w).2 !! job = Some d'
    /\ keyframes d' = Some k'
    /\ forall (p : nat) scene image,
         scene_list !! p = Some scene ->
         frame_at env video_path (Analyzer.middle_frame_num scene) = Some image ->
         k' !! Analyzer.keyframe_name (N.of_nat p + 1) = Some image.
Proof.
  intros Hd. rewrite extract_keyframes_any, Hd. cbv zeta. cbn [snd fs].
  eexists. eexists. split; [apply lookup_insert_eq|]. split; [reflexivity|].
  intros p scene image Hp Hf. apply store_keyframes_emitted; [apply emitted_sorted|].
  apply emitted_position. exists p, scene. auto.
Qed.

Lemma extract_keyframes_stores_frames_witness :
  exists d' k',
    fs (Analyzer._extract_keyframes env_gap "video.mp4" "job" fresh_world).2 !! "job" = Some d'
    /\ keyframes d' = Some k'
    /\ forall (p : nat) scene image,
         ([(0, 10); (10, 20)] : list Scene) !! p = Some scene ->
         frame_at env_gap "video.mp4" (Analyzer.middle_frame_num scene) = Some image ->
         k' !! Analyzer.keyframe_name (N.of_nat p + 1) = Some image.
Proof.
  apply (extract_keyframes_stores_frames env_gap "video.mp4" "job" fresh_world
           [(0, 10); (10, 20)]).
  reflexivity.
Defined.

(** ** The stages one by one *)

(** X20: Transcription of the audio of a job removes the extracted audio
    on both ways out: after the call audio.mp3 is gone whether the
    transcriber returned or raised.  On a return the transcript is the
    result and is saved in audio.txt; on a raise the error is the
    transcriber's and audio.txt is as it was.  Nothing else of the job
    directory changes. *)
Theorem transcribe_audio_cleans_up (env : Env) (job : string) (w : World) (d : JobDir) :
  let audio_path := PyStr.path_join (Analyzer.job_dir env job) "audio.mp3" in
  fs w !! job = Some d ->
  exists d',
    fs (Analyzer._transcribe_audio env job audio_path w).2 !! job = Some d'
    /\ audio_mp3 d' = false
    /\ match whisper_transcribe env audio_path with
       | Ok transcript =>
           (Analyzer._transcribe_audio env job audio_path w).1 = Ok transcript
           /\ audio_txt d' = Some transcript
       | Raise e =>
           (Analyzer._transcribe_audio env job audio_path w).1 = Raise e
           /\ audio_txt d' = audio_txt d
       end
    /\ status_txt d' = status_txt d /\ report_md d' = report_md d
    /\ video d' = video d /\ keyframes d' = keyframes d.
Proof.
  cbv zeta. intros Hd. rewrite (world_shape w job d Hd). exec.
  destruct (whisper_transcribe env _) as [transcript|e]; exec;
    (eexists; split; [apply lookup_insert_eq|]; repeat split).
Qed.

(** The audio is there and the transcriber is down. *)
Lemma transcribe_audio_cleans_up_witness :
  let audio_path := PyStr.path_join (Analyzer.job_dir env_whisper_down "job") "audio.mp3" in
  let w := mkWorld {["job" := set_audio_mp3 true empty_dir]} ∅ [] in
  exists d',
    fs (Analyzer._transcribe_audio env_whisper_down "job" audio_path w).2 !! "job" = Some d'
    /\ audio_mp3 d' = false
    /\ match whisper_transcribe env_whisper_down audio_path with
       | Ok transcript =>
           (Analyzer._transcribe_audio env_whisper_down "job" audio_path w).1 = Ok transcript
           /\ audio_txt d' = Some transcript
       | Raise e =>
           (Analyzer._transcribe_audio env_whisper_down "job" audio_path w).1 = Raise e
           /\ audio_txt d' = audio_txt (set_audio_mp3 true empty_dir)
       end
    /\ status_txt d' = status_txt (set_audio_mp3 true empty_dir)
    /\ report_md d' = report_md (set_audio_mp3 true empty_dir)
    /\ video d' = video (set_audio_mp3 true empty_dir)
    /\ keyframes d' = keyframes (set_audio_mp3 true empty_dir).
Proof.
  cbv zeta.
  apply (transcribe_audio_cleans_up env_whisper_down "job"
           (mkWorld {["job" := set_audio_mp3 true empty_dir]} ∅ [])
           (set_audio_mp3 true empty_dir)).
  reflexivity.
Defined.


Lemma sorted_In {A} (l : list (string * A)) (x : string * A) :
  In x (PyStr.sorted l) <-> In x l.
Proof.
  assert (Hins : forall y l', In x (PyStr.insert_sorted y l') <-> x = y \/ In x l').
  { intros y l'. induction l' as [|z l' IH]; cbn [PyStr.insert_sorted In]; [intuition|].
    destruct (String.leb y.1 z.1); cbn [In]; [intuition|]. rewrite IH. intuition. }
  unfold PyStr.sorted. induction l as [|y l IH]; cbn [foldr In]; [reflexivity|].
  rewrite Hins, IH. intuition.
Qed.

(** X22: Report generation for a job needs the keyframes directory of the
    job: without it the function raises, from the directory listing and so
    outside the fallback, and the model is not invoked.  With it the
    function always returns: the text of the model, or the fallback text
    when the model fails.  The prompt carries the transcript in quotes, and
    its pictures are the files of the keyframes directory named *.jpg that
    open, all of them and no other. *)
Theorem generate_report_outcome (env : Env) (transcript job : string) (w : World) :
  let keyframes_dir := PyStr.path_join (Analyzer.job_dir env job) "keyframes" in
  match fs w !! job ≫= keyframes with
  | None =>
      exists e, Analyzer._generate_report env transcript job keyframes_dir w = (Raise e, w)
  | Some k =>
      exists parts,
        In (Text (PyStr.newline +:+ "> " +:+ PyStr.dquote +:+ transcript +:+ PyStr.dquote)) parts
        /\ (forall image,
              In (Picture image) parts <->
              exists name stored,
                k !! name = Some stored /\ PyStr.endswith name ".jpg" = true
                /\ image_open env (PyStr.path_join keyframes_dir name) stored = Some image)
        /\ Analyzer._generate_report env transcript job keyframes_dir w
           = (Ok (match generate_content env parts with
                  | Ok text => text
                  | Raise e => Analyzer.fallback_report e transcript
                  end),
              mkWorld (fs w) (connections w) (history w ++ [Invoke job ReportGenerator]))
  end.
Proof.
  cbv zeta. set (keyframes_dir := PyStr.path_join (Analyzer.job_dir env job) "keyframes").
  unfold Analyzer._generate_report, bind, try_except, log, lift_result, ret,
    Analyzer.listdir_keyframes.
  destruct (fs w !! job) as [d|]; cbn [mbind option_bind]; [|eexists; reflexivity].
  destruct (keyframes d) as [k|]; [|eexists; reflexivity].
  match goal with |- context [generate_content env ?p] => exists p end.
  split; [|split; [|destruct (generate_content env _); reflexivity]].
  - unfold Analyzer.prompt_parts. cbn [app In]. auto 10.
  - intros image. unfold Analyzer.prompt_parts.
    rewrite !in_app_iff, in_map_iff. split.
    + intros [H|[(i & Hi & Hin)|H]];
        [cbn [In] in H; intuition discriminate| |cbn [In] in H; intuition discriminate].
      injection Hi as ->. apply list_elem_of_In, list_elem_of_omap in Hin as (f & Hf & Ho).
      apply list_elem_of_In, sorted_In, in_map_iff in Hf as ([name stored] & <- & Hf).
      apply list_elem_of_In, list_elem_of_filter in Hf as [Hjpg Hf].
      apply elem_of_map_to_list in Hf. exists name, stored. auto.
    + intros (name & stored & Hk & Hjpg & Ho). right. left. exists image. split; [reflexivity|].
      apply list_elem_of_In, list_elem_of_omap.
      exists (PyStr.path_join keyframes_dir name, stored). split; [|exact Ho].
      apply list_elem_of_In, sorted_In, in_map_iff. exists (name, stored).
      split; [reflexivity|]. apply list_elem_of_In, list_elem_of_filter.
      split; [exact Hjpg|]. now apply elem_of_map_to_list.
Qed.

(** X23: The frame the selector reads lies inside its scene: for a scene
    [start, end) that is not empty, with frame numbers below 2^52, it is
    at or after start and before end. *)
Theorem middle_frame_in_scene (start_frame end_frame : Z) :
  0 <= start_frame -> start_frame < end_frame -> end_frame < 2 ^ 52 ->
  start_frame <= Analyzer.middle_frame_num (start_frame, end_frame) < end_frame.
Proof.
  intros H0 H1 H2. assert (E : 2 ^ 53 = 2 * 2 ^ 52) by reflexivity.
  rewrite middle_frame_num_exact by lia.
  rewrite Z.quot_div_nonneg by lia.
  replace (start_frame + end_frame) with (start_frame * 2 + (end_frame - start_frame)) by lia.
  rewrite Z.div_add_l by lia.
  assert (0 <= (end_frame - start_frame) / 2) by (apply Z.div_pos; lia).
  assert ((end_frame - start_frame) / 2 < end_frame - start_frame)
    by (apply Z.div_lt; lia).
  lia.
Qed.

Lemma middle_frame_in_scene_witness :
  10 <= Analyzer.middle_frame_num (10, 11) < 11.
Proof. apply middle_frame_in_scene; [lia | lia | reflexivity]. Defined.

Lemma append_assoc (a b c : string) : (a +:+ b) +:+ c = a +:+ b +:+ c.
Proof.
  induction a as [|x a IH]; [reflexivity|].
  change (String x ((a +:+ b) +:+ c) = String x (a +:+ b +:+ c)). now rewrite IH.
Qed.

(** X24: The gate looks at nothing but the occurrence: a URL the gate accepts
    stays accepted with anything put before or after it, so a page address
    that embeds an accepted link is accepted as well. *)
Theorem gate_accepts_embedding (before url after : string) :
  Analyzer.url_is_supported url = true ->
  Analyzer.url_is_supported (before +:+ url +:+ after) = true.
Proof.
  rewrite !url_is_supported_iff.
  assert (H : forall needle, occurs_in needle url ->
                             occurs_in needle (before +:+ url +:+ after)).
  { intros needle (b & a & ->). exists (before +:+ b), (a +:+ after).
    now rewrite !append_assoc. }
  intros [Hv|Hn]; [left|right]; now apply H.
Qed.

Lemma gate_accepts_embedding_witness :
  Analyzer.url_is_supported
    ("https://www.tiktok.com/search?q=" +:+ "/video/7" +:+ "&lang=en") = true.
Proof. apply (gate_accepts_embedding "https://www.tiktok.com/search?q=" "/video/7" "&lang=en").
  reflexivity.
Defined.

Lemma remove_connection_drops_witness :
  (Main.remove_connection "job" fresh_world).2 = fresh_world.
Proof.
  apply (proj2 (proj2 (remove_connection_drops "job" ["complete"] fresh_world))).
  reflexivity.
Defined.

Lemma keyframe_number_round_trip_witness : (1 = 1)%N.
Proof. apply (proj2 (keyframe_number_round_trip 1 1)). reflexivity. Defined.
